(** * OpenGD77 CSV converter: selection store, mappers and export

    A shallow embedding of [main.py]: the [SelectionManager] store, the
    mappers of [OpenGD77Converter] and the selection and export logic of
    [ContactChannelEditor], with the properties of the specification
    stated over them.

    The Tk widgets are left out: an operation that reads a tree row takes
    the text of that row instead, and the two message boxes are the
    outcomes [NothingSelected] and [ImportFailed]. *)

From Stdlib Require Import Ascii String.
From stdpp Require Import gmap strings list pretty sorting.

Local Open Scope Z_scope.
#[local] Set Warnings "-clear-no-such-hyp".

(** ** Python and pandas values *)

Module Py.

(** A cell of a DataFrame column or a Python scalar.  [PyFloat z] is the
    float64 holding the whole number [z] (printed [z.0]); floats with a
    fraction do not occur as contact identifiers or channel parameters
    and are outside the model, as are whole numbers beyond 2^53.
    [PyNaN] is the missing value of pandas. *)
Inductive pyval :=
  | PyInt (z : Z)
  | PyFloat (z : Z)
  | PyNaN
  | PyStr (s : string).

#[global] Instance pyval_eq_dec : EqDecision pyval.
Proof. solve_decision. Defined.

(** [str(x)]. *)
Definition str (x : pyval) : string :=
  match x with
  | PyInt z => pretty z
  | PyFloat z => pretty z +:+ ".0"
  | PyNaN => "nan"
  | PyStr s => s
  end.

(** The number held by a numeric cell. *)
Definition number_of (x : pyval) : option Z :=
  match x with
  | PyInt z | PyFloat z => Some z
  | _ => None
  end.

Definition is_text (x : pyval) : bool :=
  match x with PyStr _ => true | _ => false end.

(** [pd.notna(x)]. *)
Definition notna (x : pyval) : bool :=
  match x with PyNaN => false | _ => true end.

(** [x == n] for an integer literal [n]. *)
Definition eq_int (x : pyval) (n : Z) : bool :=
  match x with
  | PyInt z | PyFloat z => bool_decide (z = n)
  | _ => false
  end.

(** [x > 0]; [None] is the [TypeError] of comparing a string with a
    number. *)
Definition gt0 (x : pyval) : option bool :=
  match x with
  | PyInt z | PyFloat z => Some (bool_decide (0 < z))
  | PyNaN => Some false
  | PyStr _ => None
  end.

(** Equality of two cells as [drop_duplicates] sees it: by numeric value,
    with all missing values alike. *)
Definition same_key (x y : pyval) : bool :=
  match x, y with
  | (PyInt a | PyFloat a), (PyInt b | PyFloat b) => bool_decide (a = b)
  | PyNaN, PyNaN => true
  | PyStr s, PyStr t => bool_decide (s = t)
  | _, _ => false
  end.

(** A cell of a float64 column. *)
Definition float_cell (x : pyval) : bool :=
  match x with PyFloat _ | PyNaN => true | _ => false end.

(** The cell as a float64 row holds it. *)
Definition as_float (x : pyval) : pyval :=
  match x with PyInt z => PyFloat z | _ => x end.

(** One cell of a row that [df.apply(..., axis=1)] hands to its lambda.
    The row is a Series of one dtype: when every column of the frame is
    numeric and one of them is float64 the row is float64 and an integer
    cell comes as a float; in every other frame the cell comes as the
    column has it. *)
Definition handed (float_rows : bool) (x : pyval) : pyval :=
  if float_rows then as_float x else x.

(** The ASCII characters for which [str.isspace] holds. *)
Definition isspace (c : ascii) : bool :=
  match c with
  | "009" | "010" | "011" | "012" | "013"
  | "028" | "029" | "030" | "031" | " " => true
  | _ => false
  end%char.

Fixpoint lstrip (s : string) : string :=
  match s with
  | String c r => if isspace c then lstrip r else s
  | EmptyString => EmptyString
  end.

Fixpoint rstrip (s : string) : string :=
  match s with
  | String c r =>
      match rstrip r with
      | EmptyString => if isspace c then EmptyString else String c EmptyString
      | r' => String c r'
      end
  | EmptyString => EmptyString
  end.

(** A string without blanks. *)
Fixpoint no_space (s : string) : bool :=
  match s with
  | String c r => negb (isspace c) && no_space r
  | EmptyString => true
  end.

(** [s.strip()]. *)
Definition strip (s : string) : string := rstrip (lstrip s).

(** The value of a decimal digit, from its character code. *)
Definition digit (c : ascii) : option N :=
  let code := N_of_ascii c in
  if bool_decide (48 ≤ code ≤ 57)%N then Some (code - 48)%N else None.

(** Where the scan of a decimal literal stands: nothing read yet, just
    after a digit, or just after an underscore. *)
Inductive scan := AtStart | AfterDigit | AfterUnderscore.

(** The digits of [int(s)]: decimal digits, single underscores allowed
    between two digits. *)
Fixpoint int_digits (st : scan) (acc : N) (s : string) : option N :=
  match s with
  | EmptyString => match st with AfterDigit => Some acc | _ => None end
  | String c r =>
      match digit c with
      | Some d => int_digits AfterDigit (acc * 10 + d)%N r
      | None =>
          if bool_decide (c = "_"%char) then
            match st with
            | AfterDigit => int_digits AfterUnderscore acc r
            | _ => None
            end
          else None
      end
  end.

(** [int(s)] for a string [s]; [None] is [ValueError]. *)
Definition int (s : string) : option Z :=
  match strip s with
  | String c r =>
      if bool_decide (c = "-"%char)
      then (λ n, - Z.of_N n) <$> int_digits AtStart 0 r
      else if bool_decide (c = "+"%char)
      then Z.of_N <$> int_digits AtStart 0 r
      else Z.of_N <$> int_digits AtStart 0 (String c r)
  | EmptyString => None
  end.

(** ASCII [s.lower()]. *)
Definition lower_char (c : ascii) : ascii :=
  let n := nat_of_ascii c in
  if bool_decide (65 ≤ n ≤ 90)%nat then ascii_of_nat (n + 32) else c.

Fixpoint lower (s : string) : string :=
  match s with
  | String c r => String (lower_char c) (lower r)
  | EmptyString => EmptyString
  end.

(** [c in s] for a character [c]. *)
Fixpoint has_char (c : ascii) (s : string) : bool :=
  match s with
  | String d r => bool_decide (d = c) || has_char c r
  | EmptyString => false
  end.

(** [s.replace(c, by)] for a one-character pattern. *)
Fixpoint replace (c : ascii) (by_ : string) (s : string) : string :=
  match s with
  | String d r =>
      if bool_decide (d = c) then by_ +:+ replace c by_ r
      else String d (replace c by_ r)
  | EmptyString => EmptyString
  end.

End Py.

(** ** [class SelectionManager] *)

Module SelectionManager.
Import Py.

(** [self.selected_ids], a Python set of strings. *)
Abbreviation store := (gset string).

Definition init : store := ∅.

Definition toggle_selection (id_str : pyval) (selected_ids : store) : store :=
  let id_str := str id_str in
  if bool_decide (id_str ∈ selected_ids)
  then selected_ids ∖ {[id_str]}
  else selected_ids ∪ {[id_str]}.

Definition select_all (id_list : list pyval) (selected_ids : store) : store :=
  let new_ids : store := list_to_set (str <$> id_list) in
  selected_ids ∪ new_ids.

Definition select_only (id_list : list pyval) (selected_ids : store) : store :=
  list_to_set (str <$> id_list).

Definition deselect_all (selected_ids : store) : store := ∅.

Definition is_selected (id_str : pyval) (selected_ids : store) : bool :=
  bool_decide (str id_str ∈ selected_ids).

Definition get_selected_from_filtered
    (filtered_ids : list pyval) (selected_ids : store) : store :=
  let filtered_ids_str : store := list_to_set (str <$> filtered_ids) in
  selected_ids ∩ filtered_ids_str.

End SelectionManager.

(** ** [class OpenGD77Converter] *)

Module Converter.
Import Py.

Definition MAX_CONTACTS : nat := 1024.

(** A row of the OpenGD77 contact table. *)
Record contact := {
  Contact_Name : pyval;
  ID : pyval;
  ID_Type : pyval;
  TS_Override : string;
}.

#[global] Instance contact_eq_dec : EqDecision contact.
Proof. solve_decision. Defined.

(** A row of a TYT contact export. *)
Record tyt_contact := {
  tyt_Contact_Name : pyval;
  Call_Type : pyval;
  Call_ID : pyval;
}.

(** What [pd.to_numeric(errors='coerce')] reads in one cell of the
    [Radio ID] column.  Reading a number in a text is the work of pandas
    and is not modelled: a cell is given by what is read in it.  A float
    with a fraction is outside the model (see [pyval]). *)
Inductive radio_id :=
  | IntegerID (z : Z)
      (* an integer cell, or text read as the integer z; within 64 bits *)
  | FloatID (z : Z)
      (* a float cell, or text read as a float, of whole value z *)
  | MissingID
      (* an empty cell *)
  | NotANumber.
      (* text in which no number is read, such as abc *)

(** A row of a DC9AL contact list. *)
Record dc9al_contact := {
  Callsign : pyval;
  Name : pyval;
  Radio_ID : radio_id;
}.

(** [Series.map({1: 'Group', 2: 'Private'})]: a value that is not a key
    of the dictionary maps to the missing value. *)
Definition map_call_type (x : pyval) : pyval :=
  if eq_int x 1 then PyStr "Group"
  else if eq_int x 2 then PyStr "Private"
  else PyNaN.

Definition _convert_tyt_contacts (df : list tyt_contact) : list contact :=
  (λ r, {| Contact_Name := tyt_Contact_Name r;
           ID := Call_ID r;
           ID_Type := map_call_type (Call_Type r);
           TS_Override := "None" |}) <$> df.

Definition to_numeric_cell (x : radio_id) : option Z :=
  match x with
  | IntegerID z | FloatID z => Some z
  | MissingID | NotANumber => None
  end.

(** A cell that keeps the result column at dtype int64. *)
Definition reads_as_int (x : radio_id) : bool :=
  match x with IntegerID _ => true | _ => false end.

(** A cell that makes [Radio ID] a column of text as the file is read. *)
Definition unreadable_id (x : radio_id) : bool :=
  match x with NotANumber => true | _ => false end.

(** A cell that makes [Radio ID] a float64 column as the file is read. *)
Definition float_id (x : radio_id) : bool :=
  match x with FloatID _ | MissingID => true | _ => false end.

(** The dtype of the column that [pd.to_numeric] returns, as the way it
    holds a whole number: int64 when every cell reads as an integer,
    float64 as soon as one cell is missing, unreadable or a float. *)
Definition numeric_dtype (column : list radio_id) : Z → pyval :=
  if forallb reads_as_int column then PyInt else PyFloat.

(** [pd.to_numeric(column, errors='coerce')]: a cell that cannot be read
    becomes the missing value. *)
Definition to_numeric (column : list radio_id) : list pyval :=
  (λ x, from_option (numeric_dtype column) PyNaN (to_numeric_cell x))
    <$> column.

(** Whether [df.apply(..., axis=1)] hands float64 rows: the three columns
    are numeric (no text in [Callsign] and [Name], no unreadable text in
    [Radio ID]) and one of them is float64.  The frame is taken to hold
    the three columns that the mapper reads. *)
Definition dc9al_float_rows (df : list dc9al_contact) : bool :=
  forallb (λ row, negb (is_text (Callsign row)) && negb (is_text (Name row))
                  && negb (unreadable_id (Radio_ID row))) df
  && existsb (λ row, float_cell (Callsign row) || float_cell (Name row)
                     || float_id (Radio_ID row)) df.

(** The lambda building [Contact Name] from [Callsign] and [Name], on
    the two cells of the row handed to it. *)
Definition contact_name_of (callsign name : pyval) : string :=
  if notna name && negb (bool_decide (strip (str name) = EmptyString))
  then strip (strip (str callsign) +:+ " " +:+ strip (str name))
  else strip (str callsign).

Definition dc9al_contact_name (float_rows : bool) (row : dc9al_contact) : string :=
  contact_name_of (handed float_rows (Callsign row))
                  (handed float_rows (Name row)).

(** [df.drop_duplicates(subset=[key])], which keeps the first row of each
    key; [seen] holds the keys of the rows already passed. *)
Fixpoint drop_duplicates_from {A} (key : A → pyval)
    (seen : list pyval) (df : list A) : list A :=
  match df with
  | [] => []
  | row :: rest =>
      if existsb (same_key (key row)) seen
      then drop_duplicates_from key seen rest
      else row :: drop_duplicates_from key (key row :: seen) rest
  end.

Definition drop_duplicates {A} (key : A → pyval) (df : list A) : list A :=
  drop_duplicates_from key [] df.

(** [ID > 0] on the numeric column made by [to_numeric]. *)
Definition positive_id (c : contact) : bool :=
  from_option id false (gt0 (ID c)).

(** The three [str.replace] calls on [Contact Name]. *)
Definition clean_name (s : string) : string :=
  replace "," " " (replace "'" EmptyString (replace "034" EmptyString s)).

Definition clean_contact_name (c : contact) : contact :=
  {| Contact_Name :=
       match Contact_Name c with PyStr s => PyStr (clean_name s) | _ => PyNaN end;
     ID := ID c; ID_Type := ID_Type c; TS_Override := TS_Override c |}.

(** [_convert_dc9al_contacts].  [None] is the exception raised on a table
    without rows: [df.apply(..., axis=1)] then returns nothing that holds
    text, and the [.str] accessor of [.str.replace] raises
    [AttributeError]; [convert_contacts] catches the exception, logs it
    and returns no table. *)
Definition _convert_dc9al_contacts (df : list dc9al_contact)
    : option (list contact) :=
  let names := dc9al_contact_name (dc9al_float_rows df) <$> df in
  let ids := to_numeric (Radio_ID <$> df) in
  let gd77_contacts :=
    zip_with (λ n i, {| Contact_Name := PyStr n; ID := i;
                        ID_Type := PyStr "Private";
                        TS_Override := "None" |}) names ids in
  let gd77_contacts := filter (λ c, notna (ID c)) gd77_contacts in
  let gd77_contacts := filter (λ c, positive_id c) gd77_contacts in
  let gd77_contacts := drop_duplicates ID gd77_contacts in
  match df with
  | [] => None
  | _ :: _ => Some (clean_contact_name <$> gd77_contacts)
  end.

(** A row of a TYT channel export.  The two frequency columns are
    numeric; their cells are carried over untouched and are held as the
    text that [str] gives for them, so that a cell of a float64 column
    shows a decimal point. *)
Record tyt_channel := {
  tyt_Channel_Name : pyval;
  Channel_Mode : pyval;
  RX_Frequency_MHz : string;
  TX_Frequency_MHz : string;
  Color_Code : pyval;
  Repeater_Slot : pyval;
  CTCSS_DCS_Enc : pyval;
}.

(** A row of the OpenGD77 channel table. *)
Record channel := {
  Channel_Number : Z;
  Channel_Name : pyval;
  Channel_Type : pyval;
  Rx_Frequency : string;
  Tx_Frequency : string;
  Bandwidth_kHz : string;
  Colour_Code : string;
  Timeslot : string;
  Contact : string;
  TG_List : string;
  DMR_ID : string;
  TS1_TA_Tx : string;
  TS2_TA_Tx : string;
  RX_Tone : string;
  TX_Tone : string;
  Squelch : string;
  Power : string;
  Rx_Only : string;
  Zone_Skip : string;
  All_Skip : string;
  TOT : string;
  VOX : string;
  No_Beep : string;
  No_Eco : string;
  APRS : string;
  Latitude : string;
  Longitude : string;
  Use_Location : string;
}.

#[global] Instance channel_eq_dec : EqDecision channel.
Proof. solve_decision. Defined.

(** [Series.map({1: 'Analogue', 2: 'Digital'})]. *)
Definition map_channel_mode (x : pyval) : pyval :=
  if eq_int x 1 then PyStr "Analogue"
  else if eq_int x 2 then PyStr "Digital"
  else PyNaN.

(** [lambda x: '25' if x == 1 else ''] *)
Definition bandwidth_of (x : pyval) : string :=
  if eq_int x 1 then "25" else EmptyString.

(** Whether [df.apply(..., axis=1)] hands float64 rows: no column holds
    text and one column is float64, by a float or missing cell or by a
    frequency that is not a whole number.  The frame is taken to hold the
    seven columns that the mapper reads. *)
Definition channel_float_rows (df : list tyt_channel) : bool :=
  forallb (λ row, negb (is_text (tyt_Channel_Name row))
                  && negb (is_text (Channel_Mode row))
                  && negb (is_text (Color_Code row))
                  && negb (is_text (Repeater_Slot row))
                  && negb (is_text (CTCSS_DCS_Enc row))) df
  && existsb (λ row, float_cell (tyt_Channel_Name row)
                     || float_cell (Channel_Mode row)
                     || float_cell (Color_Code row)
                     || float_cell (Repeater_Slot row)
                     || float_cell (CTCSS_DCS_Enc row)
                     || bool_decide (int (RX_Frequency_MHz row) = None)
                     || bool_decide (int (TX_Frequency_MHz row) = None)) df.

(** [str(v) if row['Channel Mode'] == 2 and v > 0 else '']: the
    comparison [v > 0] is reached on digital rows only; [None] is its
    [TypeError]. *)
Definition digital_field (mode v : pyval) : option string :=
  if eq_int mode 2 then
    b ← gt0 v; Some (if b : bool then str v else EmptyString)
  else Some EmptyString.

(** [str(x) if x != 'None' and pd.notna(x) and x != 0 else ''] *)
Definition tx_tone_of (x : pyval) : string :=
  if negb (bool_decide (x = PyStr "None")) && notna x && negb (eq_int x 0)
  then str x else EmptyString.

(** One row of the result.  [Colour Code] and [Timeslot] are computed by
    [df.apply(..., axis=1)] on the row handed to the lambda, the other
    columns on the cells of their source column. *)
Definition convert_channel_row (float_rows : bool) (number : Z)
    (row : tyt_channel) : option channel :=
  let mode := handed float_rows (Channel_Mode row) in
  colour ← digital_field mode (handed float_rows (Color_Code row));
  slot ← digital_field mode (handed float_rows (Repeater_Slot row));
  Some {| Channel_Number := number;
          Channel_Name := tyt_Channel_Name row;
          Channel_Type := map_channel_mode (Channel_Mode row);
          Rx_Frequency := RX_Frequency_MHz row;
          Tx_Frequency := TX_Frequency_MHz row;
          Bandwidth_kHz := bandwidth_of (Channel_Mode row);
          Colour_Code := colour;
          Timeslot := slot;
          Contact := "None";
          TG_List := "None";
          DMR_ID := "None";
          TS1_TA_Tx := "Off";
          TS2_TA_Tx := "Off";
          RX_Tone := EmptyString;
          TX_Tone := tx_tone_of (CTCSS_DCS_Enc row);
          Squelch := "Master";
          Power := "Master";
          Rx_Only := "No";
          Zone_Skip := "No";
          All_Skip := "No";
          TOT := "180";
          VOX := "Off";
          No_Beep := "No";
          No_Eco := "No";
          APRS := "None";
          Latitude := "0";
          Longitude := "0";
          Use_Location := "No" |}.

(** [range(1, len(df) + 1)] *)
Definition channel_numbers (n : nat) : list Z := Z.of_nat <$> seq 1 n.

(** The body of [convert_channels] once the file is read; [None] is the
    exception caught at its end, after which there is no channel table. *)
Definition convert_channels (df : list tyt_channel) : option (list channel) :=
  mapM (λ p : Z * tyt_channel,
          convert_channel_row (channel_float_rows df) p.1 p.2)
       (zip (channel_numbers (length df)) df).

End Converter.

(** ** [class ContactChannelEditor] and the export path of [OpenGD77GUI] *)

Module Editor.
Import Py Converter.

(** The table handed to [save_csv]. *)
Inductive dataframe :=
  | ContactsTable (rows : list contact)
  | ChannelsTable (rows : list channel).

(** The output folder: the table last saved under each file name. *)
Abbreviation files := (gmap string dataframe).

(** [OpenGD77Converter.save_csv] *)
Definition save_csv (df : dataframe) (output_path : string) (fs : files) : files :=
  <[output_path := df]> fs.

(** [OpenGD77GUI.continue_conversion_with_selection] *)
Definition continue_conversion_with_selection
    (selected_contacts_df : option (list contact))
    (selected_channels_df : option (list channel)) (fs : files) : files :=
  let fs :=
    match selected_contacts_df with
    | Some df => save_csv (ContactsTable df) "Contacts.csv" fs
    | None => fs
    end in
  match selected_channels_df with
  | Some df => save_csv (ChannelsTable df) "Channels.csv" fs
  | None => fs
  end.

(** The fields of the editor that selection, filtering and export read or
    write.  [contacts_tree] exists exactly when a contact table was given
    to [__init__], that is when [original_contacts_df] is not [None];
    likewise for channels. *)
Record editor := {
  contacts_df : option (list contact);
  channels_df : option (list channel);
  original_contacts_df : option (list contact);
  original_channels_df : option (list channel);
  contact_selection : gset string;
  channel_selection : gset string;
  contacts_search_var : string;
  contacts_filter_var : string;
  channels_search_var : string;
  channels_filter_var : string;
  editor_window : bool;
}.

(** [__init__] *)
Definition init (contacts_df : option (list contact))
    (channels_df : option (list channel)) : editor :=
  {| contacts_df := contacts_df;
     channels_df := channels_df;
     original_contacts_df := contacts_df;
     original_channels_df := channels_df;
     contact_selection := SelectionManager.init;
     channel_selection := SelectionManager.init;
     contacts_search_var := EmptyString;
     contacts_filter_var := "All";
     channels_search_var := EmptyString;
     channels_filter_var := "All";
     editor_window := true |}.

Definition set_contacts_df (v : option (list contact)) (e : editor) : editor :=
  {| contacts_df := v;
     channels_df := channels_df e;
     original_contacts_df := original_contacts_df e;
     original_channels_df := original_channels_df e;
     contact_selection := contact_selection e;
     channel_selection := channel_selection e;
     contacts_search_var := contacts_search_var e;
     contacts_filter_var := contacts_filter_var e;
     channels_search_var := channels_search_var e;
     channels_filter_var := channels_filter_var e;
     editor_window := editor_window e |}.

Definition set_channels_df (v : option (list channel)) (e : editor) : editor :=
  {| contacts_df := contacts_df e;
     channels_df := v;
     original_contacts_df := original_contacts_df e;
     original_channels_df := original_channels_df e;
     contact_selection := contact_selection e;
     channel_selection := channel_selection e;
     contacts_search_var := contacts_search_var e;
     contacts_filter_var := contacts_filter_var e;
     channels_search_var := channels_search_var e;
     channels_filter_var := channels_filter_var e;
     editor_window := editor_window e |}.

Definition set_contact_selection (v : gset string) (e : editor) : editor :=
  {| contacts_df := contacts_df e;
     channels_df := channels_df e;
     original_contacts_df := original_contacts_df e;
     original_channels_df := original_channels_df e;
     contact_selection := v;
     channel_selection := channel_selection e;
     contacts_search_var := contacts_search_var e;
     contacts_filter_var := contacts_filter_var e;
     channels_search_var := channels_search_var e;
     channels_filter_var := channels_filter_var e;
     editor_window := editor_window e |}.

Definition set_channel_selection (v : gset string) (e : editor) : editor :=
  {| contacts_df := contacts_df e;
     channels_df := channels_df e;
     original_contacts_df := original_contacts_df e;
     original_channels_df := original_channels_df e;
     contact_selection := contact_selection e;
     channel_selection := v;
     contacts_search_var := contacts_search_var e;
     contacts_filter_var := contacts_filter_var e;
     channels_search_var := channels_search_var e;
     channels_filter_var := channels_filter_var e;
     editor_window := editor_window e |}.

(** The user typing in a search box or picking a type in a combobox,
    before the callback runs. *)
Definition set_contacts_filter_vars (search type : string) (e : editor) : editor :=
  {| contacts_df := contacts_df e;
     channels_df := channels_df e;
     original_contacts_df := original_contacts_df e;
     original_channels_df := original_channels_df e;
     contact_selection := contact_selection e;
     channel_selection := channel_selection e;
     contacts_search_var := search;
     contacts_filter_var := type;
     channels_search_var := channels_search_var e;
     channels_filter_var := channels_filter_var e;
     editor_window := editor_window e |}.

Definition set_channels_filter_vars (search type : string) (e : editor) : editor :=
  {| contacts_df := contacts_df e;
     channels_df := channels_df e;
     original_contacts_df := original_contacts_df e;
     original_channels_df := original_channels_df e;
     contact_selection := contact_selection e;
     channel_selection := channel_selection e;
     contacts_search_var := contacts_search_var e;
     contacts_filter_var := contacts_filter_var e;
     channels_search_var := search;
     channels_filter_var := type;
     editor_window := editor_window e |}.

(** [editor_window.destroy()] *)
Definition destroy (e : editor) : editor :=
  {| contacts_df := contacts_df e;
     channels_df := channels_df e;
     original_contacts_df := original_contacts_df e;
     original_channels_df := original_channels_df e;
     contact_selection := contact_selection e;
     channel_selection := channel_selection e;
     contacts_search_var := contacts_search_var e;
     contacts_filter_var := contacts_filter_var e;
     channels_search_var := channels_search_var e;
     channels_filter_var := channels_filter_var e;
     editor_window := false |}.

(** [re.compile(pattern)], as [Series.str.contains] calls it before it
    looks at any cell: [None] is [re.error], the pattern is not a regular
    expression (an open bracket, say); otherwise the search of the
    compiled pattern in a text.  The regular expression engine is left
    open. *)
Definition matcher : Type := string → option (string → bool).

(** Whether the [.str] accessor takes a column: a column read from a file
    is text when it has no row or holds a text cell (other cells of it
    are then missing); a column of numbers alone, or of missing cells
    alone, raises [AttributeError]. *)
Definition text_column (column : list pyval) : bool :=
  bool_decide (column = []) || existsb is_text column.

Section filtering.

Variable contains : matcher.

(** [compiled.search(cell)] with [na=False]: a cell that is not text does
    not match. *)
Definition name_matches (found_in : string → bool) (name : pyval) : bool :=
  match name with
  | PyStr s => found_in (lower s)
  | _ => false
  end.

(** [column.str.lower().str.contains(search_text, na=False)], the mask of
    the rows; [None] is the exception raised by the [.str] accessor or by
    the pattern. *)
Definition search_mask (search_text : string) (column : list pyval)
    : option (pyval → bool) :=
  if text_column column
  then found_in ← contains search_text; Some (name_matches found_in)
  else None.

(** [column == filter_type] on one cell. *)
Definition type_is (filter_type : string) (x : pyval) : bool :=
  bool_decide (x = PyStr filter_type).

(** [filter_contacts].  The callback that raises is given up there:
    [contacts_df] is not assigned and the tree is not filled again, so
    the previous view stays. *)
Definition filter_contacts (e : editor) : editor :=
  match original_contacts_df e with
  | None => e
  | Some original =>
      let search_text := lower (contacts_search_var e) in
      let filter_type := contacts_filter_var e in
      let filtered_df := original in
      let searched :=
        if bool_decide (search_text = EmptyString) then Some filtered_df
        else
          (λ mask : pyval → bool, filter (λ c, mask (Contact_Name c)) filtered_df)
            <$> search_mask search_text (Contact_Name <$> filtered_df) in
      match searched with
      | None => e
      | Some filtered_df =>
          let filtered_df :=
            if bool_decide (filter_type = "All") then filtered_df
            else filter (λ c, type_is filter_type (ID_Type c)) filtered_df in
          set_contacts_df (Some filtered_df) e
      end
  end.

Definition filter_channels (e : editor) : editor :=
  match original_channels_df e with
  | None => e
  | Some original =>
      let search_text := lower (channels_search_var e) in
      let filter_type := channels_filter_var e in
      let filtered_df := original in
      let searched :=
        if bool_decide (search_text = EmptyString) then Some filtered_df
        else
          (λ mask : pyval → bool, filter (λ c, mask (Channel_Name c)) filtered_df)
            <$> search_mask search_text (Channel_Name <$> filtered_df) in
      match searched with
      | None => e
      | Some filtered_df =>
          let filtered_df :=
            if bool_decide (filter_type = "All") then filtered_df
            else filter (λ c, type_is filter_type (Channel_Type c)) filtered_df in
          set_channels_df (Some filtered_df) e
      end
  end.

End filtering.

(** What a click on a contact row did. *)
Inductive toggle_outcome := Toggled | LimitReached.

(** [toggle_contact_selection]; [contact_id_str] is the text of the ID
    column of the clicked row. *)
Definition toggle_contact_selection (contact_id_str : string) (e : editor)
    : toggle_outcome * editor :=
  let blocked :=
    negb (SelectionManager.is_selected (PyStr contact_id_str) (contact_selection e))
    && bool_decide (MAX_CONTACTS ≤ size (contact_selection e))%nat in
  if blocked then (LimitReached, e)
  else (Toggled,
        set_contact_selection
          (SelectionManager.toggle_selection (PyStr contact_id_str)
             (contact_selection e)) e).


(** The loop of [select_all_contacts]: add while the store is below the
    limit, leave the loop at the first identifier found at the limit. *)
Fixpoint add_visible_contacts (visible_ids : list string)
    (selected_ids : gset string) : gset string :=
  match visible_ids with
  | [] => selected_ids
  | contact_id :: rest =>
      if bool_decide (size selected_ids < MAX_CONTACTS)%nat
      then add_visible_contacts rest (selected_ids ∪ {[contact_id]})
      else selected_ids
  end.

Definition select_all_contacts (e : editor) : editor :=
  match original_contacts_df e with
  | None => e
  | Some _ =>
      let visible_ids := (λ c, str (ID c)) <$> default [] (contacts_df e) in
      set_contact_selection
        (add_visible_contacts visible_ids (contact_selection e)) e
  end.

Definition deselect_all_contacts (e : editor) : editor :=
  match original_contacts_df e with
  | None => e
  | Some _ =>
      set_contact_selection
        (SelectionManager.deselect_all (contact_selection e)) e
  end.

Definition select_all_channels (e : editor) : editor :=
  match original_channels_df e with
  | None => e
  | Some _ =>
      let visible_ids :=
        (λ c, str (PyInt (Channel_Number c))) <$> default [] (channels_df e) in
      set_channel_selection
        (foldl (λ s channel_id, s ∪ {[channel_id]}) (channel_selection e)
           visible_ids) e
  end.

Definition deselect_all_channels (e : editor) : editor :=
  match original_channels_df e with
  | None => e
  | Some _ =>
      set_channel_selection
        (SelectionManager.deselect_all (channel_selection e)) e
  end.

(** [list(set(int(id_str) for id_str in selected))] followed by [sort()];
    [None] is the [ValueError] of an identifier that [int] cannot read. *)
Definition selected_ids_int (selected : gset string) : option (list Z) :=
  ints ← mapM int (elements selected);
  Some (merge_sort Z.le (elements (list_to_set ints : gset Z))).

(** [column.isin(ids)] on one cell. *)
Definition isin (ids : list Z) (x : pyval) : bool :=
  match x with
  | PyInt z | PyFloat z => bool_decide (z ∈ ids)
  | _ => false
  end.

(** The rows of the original table that the export keeps for one kind of
    record: none asked for ([Some None]) when the selection is empty,
    [None] when an exception is raised. *)
Definition export_rows {A} (key : A → pyval)
    (selected : gset string) (original : option (list A))
    : option (option (list A)) :=
  if bool_decide (selected = ∅) then Some None
  else
    ids ← selected_ids_int selected;
    df ← original;
    Some (Some (drop_duplicates key (filter (λ row, isin ids (key row)) df))).

Inductive import_outcome :=
  | NothingSelected
  | ImportFailed
  | Imported (selected_contacts_df : option (list contact))
             (selected_channels_df : option (list channel)).

(** [import_selected], with the folder it writes to. *)
Definition import_selected (e : editor) (fs : files)
    : import_outcome * editor * files :=
  let selected_contacts_global := contact_selection e in
  let selected_channels_global := channel_selection e in
  if bool_decide (selected_contacts_global = ∅)
     && bool_decide (selected_channels_global = ∅)
  then (NothingSelected, e, fs)
  else
    match export_rows ID selected_contacts_global (original_contacts_df e),
          export_rows (λ c, PyInt (Channel_Number c))
            selected_channels_global (original_channels_df e) with
    | Some selected_contacts_df, Some selected_channels_df =>
        (Imported selected_contacts_df selected_channels_df,
         destroy e,
         continue_conversion_with_selection
           selected_contacts_df selected_channels_df fs)
    | _, _ => (ImportFailed, e, fs)
    end.

(** What the user does on the contacts tab. *)
Inductive action :=
  | Click (contact_id_str : string)
  | SelectAllVisible
  | DeselectAll
  | Filter (search type : string).

Definition step (contains : matcher)
    (e : editor) (a : action) : editor :=
  match a with
  | Click contact_id_str => (toggle_contact_selection contact_id_str e).2
  | SelectAllVisible => select_all_contacts e
  | DeselectAll => deselect_all_contacts e
  | Filter search type =>
      filter_contacts contains (set_contacts_filter_vars search type e)
  end.

Definition run (contains : matcher)
    (actions : list action) (e : editor) : editor :=
  foldl (step contains) e actions.

(** The contact rows written by an export. *)
Definition exported_contacts (r : import_outcome) : list contact :=
  match r with
  | Imported (Some df) _ => df
  | _ => []
  end.

Definition exported_channels (r : import_outcome) : list channel :=
  match r with
  | Imported _ (Some df) => df
  | _ => []
  end.

End Editor.

(** ** The specification's wording *)

Module Spec.
Import Py Converter.

(** "Deduplicated by ID keeping the first occurrence": a row stays, and
    the later rows of the same key go. *)
Fixpoint keep_first {A} (key : A → pyval) (rows : list A) : list A :=
  match rows with
  | [] => []
  | row :: rest =>
      row :: filter (λ r, ¬ same_key (key r) (key row)) (keep_first key rest)
  end.

(** The name as the mapper builds it and the number of a DC9AL row whose
    Radio ID reads as a number above 0. *)
Definition dc9al_readable (float_rows : bool) (row : dc9al_contact)
    : option (string * Z) :=
  z ← to_numeric_cell (Radio_ID row);
  if bool_decide (0 < z)
  then Some (dc9al_contact_name float_rows row, z) else None.

(** The contact row of a name and a number, the number held as the
    column's dtype has it. *)
Definition contact_of (dtype : Z → pyval) (p : string * Z) : contact :=
  {| Contact_Name := PyStr p.1; ID := dtype p.2;
     ID_Type := PyStr "Private"; TS_Override := "None" |}.

(** "Every ID is greater than 0 and IDs are unique within the record
    set", read on the numbers the ID cells hold. *)
Definition ids_positive_unique (rows : list contact) : Prop :=
  Forall (λ c, ∃ z, number_of (ID c) = Some z ∧ 0 < z) rows
  ∧ NoDup ((λ c, number_of (ID c)) <$> rows).

(** "Every ID is an integer greater than 0 and IDs are unique within the
    record set". *)
Definition integer_ids_positive_unique (rows : list contact) : Prop :=
  Forall (λ c, ∃ z, ID c = PyInt z ∧ 0 < z) rows
  ∧ NoDup (ID <$> rows).

(** A DC9AL table in which every Radio ID reads as an integer. *)
Definition integer_radio_ids (df : list dc9al_contact) : Prop :=
  Forall (λ row, ∃ z, Radio_ID row = IntegerID z) df.

(** The search that is given up with an exception: some text is typed
    in the search box, and the name column is not text or the text is
    not a regular expression. *)
Definition search_raises (contains : Editor.matcher) (search_text : string)
    (column : list pyval) : Prop :=
  search_text ≠ EmptyString
  ∧ (Editor.text_column column = false ∨ contains search_text = None).

(** A contact row that passes the search text and the type filter. *)
Definition shown (contains : Editor.matcher) (search_text filter_type : string)
    (c : contact) : Prop :=
  (search_text = EmptyString
   ∨ ∃ found_in s, contains search_text = Some found_in
       ∧ Contact_Name c = PyStr s ∧ found_in (lower s))
  ∧ (filter_type = "All" ∨ ID_Type c = PyStr filter_type).

(** A channel row whose colour code and slot can be compared with 0:
    on a digital row neither is text. *)
Definition comparable (row : tyt_channel) : Prop :=
  eq_int (Channel_Mode row) 2 →
  is_text (Color_Code row) = false ∧ is_text (Repeater_Slot row) = false.

(** A click on a row whose ID column shows an integer. *)
Definition click_on_integer_id (a : Editor.action) : Prop :=
  match a with
  | Editor.Click contact_id_str => ∃ z, contact_id_str = str (PyInt z)
  | _ => True
  end.

(** A digital row with text for its colour code or its slot. *)
Definition text_in_digital_row (row : tyt_channel) : Prop :=
  eq_int (Channel_Mode row) 2
  ∧ (is_text (Color_Code row) ∨ is_text (Repeater_Slot row)).

(** A store that holds canonical identifiers only: each member is
    [str] of an integer key. *)
Definition canonical (selected : gset string) : Prop :=
  ∀ s, s ∈ selected → ∃ z, s = str (PyInt z).

End Spec.

(** ** Sample tables *)

Module Samples.
Import Py Converter Editor.

(** The identifiers [1 .. n]. *)
Definition many_ids (n : nat) : list pyval :=
  (λ i, PyInt (Z.of_nat i)) <$> seq 1 n.

(** A search box that matches by equality; any matcher would do for the
    samples below, which leave the search box empty. *)
Definition exact_match : matcher :=
  λ pattern, Some (λ cell, bool_decide (cell = pattern)).

Definition mk_contact (name : string) (id : Z) (type : string) : contact :=
  {| Contact_Name := PyStr name; ID := PyInt id;
     ID_Type := PyStr type; TS_Override := "None" |}.

(** A DC9AL list with one Radio ID that is not a number: the Radio IDs
    of the file are 2621234 and abc. *)
Definition dc9al_with_bad_row : list dc9al_contact :=
  [ {| Callsign := PyStr "DL1ABC"; Name := PyStr "John";
       Radio_ID := IntegerID 2621234 |};
    {| Callsign := PyStr "DL2XYZ"; Name := PyStr "Max";
       Radio_ID := NotANumber |} ].

(** The editor opened on its conversion, after a click on its one row,
    whose ID column shows [2621234.0]. *)
Definition dc9al_session : editor :=
  run exact_match [Click "2621234.0"]
    (Editor.init (_convert_dc9al_contacts dc9al_with_bad_row) None).

(** A DC9AL list whose Radio IDs all read as integers, with a zero and
    a repeated one. *)
Definition dc9al_integers : list dc9al_contact :=
  [ {| Callsign := PyStr "DL1ABC"; Name := PyStr "John";
       Radio_ID := IntegerID 2621234 |};
    {| Callsign := PyStr "DL3XYZ"; Name := PyNaN;
       Radio_ID := IntegerID 0 |};
    {| Callsign := PyStr "DL4XYZ"; Name := PyStr "Eva";
       Radio_ID := IntegerID 7 |};
    {| Callsign := PyStr "DL1ABC"; Name := PyStr "John again";
       Radio_ID := IntegerID 2621234 |} ].

(** A TYT contact export with a zero Call ID and a repeated one. *)
Definition tyt_unchecked : list tyt_contact :=
  [ {| tyt_Contact_Name := PyStr "Alice"; Call_Type := PyInt 1;
       Call_ID := PyInt 100100 |};
    {| tyt_Contact_Name := PyStr "Zero"; Call_Type := PyInt 2;
       Call_ID := PyInt 0 |};
    {| tyt_Contact_Name := PyStr "Alice 2"; Call_Type := PyInt 2;
       Call_ID := PyInt 100100 |} ].

(** A contact table that is not in ascending order of ID, with both of
    its rows clicked. *)
Definition shuffled_contacts : list contact :=
  [mk_contact "Bravo" 5 "Private"; mk_contact "Alpha" 3 "Private"].

Definition shuffled_session : editor :=
  run exact_match [Click "5"; Click "3"]
    (Editor.init (Some shuffled_contacts) None).

(** Contact 5 is clicked while every row is shown, then the type filter
    is set to Group, which hides it. *)
Definition net_contacts : list contact :=
  [mk_contact "Net" 91 "Group"; mk_contact "Eve" 5 "Private"].

Definition hidden_session : editor :=
  run exact_match [Click "5"; Filter EmptyString "Group"]
    (Editor.init (Some net_contacts) None).

(** A digital channel with colour code 3 on slot 1, then an analogue
    one. *)
Definition two_channels : list tyt_channel :=
  [ {| tyt_Channel_Name := PyStr "DB0XYZ"; Channel_Mode := PyInt 2;
       RX_Frequency_MHz := "439.5625"; TX_Frequency_MHz := "431.9625";
       Color_Code := PyInt 3; Repeater_Slot := PyInt 1;
       CTCSS_DCS_Enc := PyStr "None" |};
    {| tyt_Channel_Name := PyStr "Calling"; Channel_Mode := PyInt 1;
       RX_Frequency_MHz := "145.5"; TX_Frequency_MHz := "145.5";
       Color_Code := PyInt 0; Repeater_Slot := PyInt 0;
       CTCSS_DCS_Enc := PyStr "None" |} ].

(** The same two channels in a file whose Color Code cell is empty on
    the analogue row: the Color Code column is float64. *)
Definition blank_colour_channels : list tyt_channel :=
  [ {| tyt_Channel_Name := PyStr "DB0XYZ"; Channel_Mode := PyInt 2;
       RX_Frequency_MHz := "439.5625"; TX_Frequency_MHz := "431.9625";
       Color_Code := PyFloat 3; Repeater_Slot := PyInt 1;
       CTCSS_DCS_Enc := PyStr "None" |};
    {| tyt_Channel_Name := PyStr "Calling"; Channel_Mode := PyInt 1;
       RX_Frequency_MHz := "145.5"; TX_Frequency_MHz := "145.5";
       Color_Code := PyNaN; Repeater_Slot := PyInt 0;
       CTCSS_DCS_Enc := PyStr "None" |} ].

(** The same two channels with numbers for names and for tones: no
    column holds text. *)
Definition numeric_channels : list tyt_channel :=
  [ {| tyt_Channel_Name := PyInt 1; Channel_Mode := PyInt 2;
       RX_Frequency_MHz := "439.5625"; TX_Frequency_MHz := "431.9625";
       Color_Code := PyInt 3; Repeater_Slot := PyInt 1;
       CTCSS_DCS_Enc := PyInt 0 |};
    {| tyt_Channel_Name := PyInt 2; Channel_Mode := PyInt 1;
       RX_Frequency_MHz := "145.5"; TX_Frequency_MHz := "145.5";
       Color_Code := PyInt 0; Repeater_Slot := PyInt 0;
       CTCSS_DCS_Enc := PyInt 0 |} ].

(** Both tables loaded, every row selected. *)
Definition both_session : editor :=
  select_all_channels
    (run exact_match [Click "5"; Click "3"]
       (Editor.init (Some shuffled_contacts) (convert_channels two_channels))).

(** An output folder that already holds a contact file. *)
Definition old_files : files :=
  {[ "Contacts.csv" := ContactsTable shuffled_contacts ]}.

(** An editor whose contact store is full: the identifiers 1 to 1024. *)
Definition full_editor : editor :=
  set_contact_selection
    (SelectionManager.select_all (many_ids 1024) SelectionManager.init)
    (Editor.init (Some []) None).

End Samples.

(** ** [OpenGD77Converter._read_csv_with_log] *)

Module Reader.

(** What one [pd.read_csv(filepath, encoding=...)] call does: it hands
    back a table, raises [UnicodeDecodeError], or raises something
    else. *)
Inductive read_result (A : Type) :=
  | Loaded (df : A)
  | UnicodeDecodeError
  | OtherException (message : string).

Arguments Loaded {A} df.
Arguments UnicodeDecodeError {A}.
Arguments OtherException {A} message.

Definition encodings_to_try : list string :=
  ["utf-8"; "cp1252"; "iso-8859-1"; "latin-1"].

Section reader.
Context {A : Type}.

(** [pd.read_csv] on the file at hand, by encoding. *)
Variable read_csv : string → read_result A.

(** The [for] loop and what follows it: the table, if any, and the
    messages logged. *)
Fixpoint try_encodings (encodings : list string) : option A * list string :=
  match encodings with
  | [] => (None, ["Failed to read file with supported encodings"])
  | encoding :: rest =>
      match read_csv encoding with
      | Loaded df =>
          (Some df, ["File loaded with " +:+ encoding +:+ " encoding"])
      | UnicodeDecodeError => try_encodings rest
      | OtherException message =>
          (None, ["File error: " +:+ message;
                  "Failed to read file with supported encodings"])
      end
  end.

Definition _read_csv_with_log : option A * list string :=
  try_encodings encodings_to_try.

End reader.

End Reader.

(** ** [ContactChannelEditor.update_counts] *)

Module Counts.
Import Py Converter Editor.

(** The two wordings of a "selected" label:
    [Selected in filter: a, Total selected: b] and
    [Selected: a for import]. *)
Inductive selected_label :=
  | SelectedInFilter (in_filter total : nat)
  | SelectedForImport (in_filter : nat).

(** The numbers that [update_counts] writes on the labels of a tab, once
    the tab exists. *)
Record tab_labels := {
  filter_label : nat;
  selected_text : selected_label;
}.

Record labels := {
  contacts_labels : option tab_labels;
  channels_labels : option tab_labels;
  selection_label : nat * nat;
}.

Definition tab_counts (selected_ids filtered_ids : gset string) : tab_labels :=
  let selected_filtered := selected_ids ∩ filtered_ids in
  let total_selected := size selected_ids in
  {| filter_label := size filtered_ids;
     selected_text :=
       if bool_decide (size selected_filtered < total_selected)%nat
       then SelectedInFilter (size selected_filtered) total_selected
       else SelectedForImport (size selected_filtered) |}.

Definition filtered_contact_ids (e : editor) : gset string :=
  match contacts_df e with
  | Some df => list_to_set ((λ c, str (ID c)) <$> df)
  | None => ∅
  end.

Definition filtered_channel_ids (e : editor) : gset string :=
  match channels_df e with
  | Some df => list_to_set ((λ c, str (PyInt (Channel_Number c))) <$> df)
  | None => ∅
  end.

(** [update_counts], without the tab titles.  The labels of a tab exist
    when the tab was set up, see [editor]. *)
Definition update_counts (e : editor) : labels :=
  {| contacts_labels :=
       match original_contacts_df e with
       | Some _ =>
           Some (tab_counts (contact_selection e) (filtered_contact_ids e))
       | None => None
       end;
     channels_labels :=
       match original_channels_df e with
       | Some _ =>
           Some (tab_counts (channel_selection e) (filtered_channel_ids e))
       | None => None
       end;
     selection_label :=
       (size (contact_selection e), size (channel_selection e)) |}.

End Counts.

(** ** More sample tables *)

Module MoreSamples.
Import Py Converter Editor Samples Reader.

(** A file that is not UTF-8 and reads as CP1252. *)
Definition cp1252_file (encoding : string) : read_result (list tyt_contact) :=
  if bool_decide (encoding = "utf-8") then UnicodeDecodeError
  else Loaded tyt_unchecked.

(** A file that cannot be opened. *)
Definition missing_file (encoding : string) : read_result (list tyt_contact) :=
  OtherException "No such file or directory".


(** A channel table with text where the colour code of a digital row
    should be. *)
Definition text_colour_channels : list tyt_channel :=
  [ {| tyt_Channel_Name := PyStr "Call"; Channel_Mode := PyInt 1;
       RX_Frequency_MHz := "145.5"; TX_Frequency_MHz := "145.5";
       Color_Code := PyStr "n/a"; Repeater_Slot := PyInt 0;
       CTCSS_DCS_Enc := PyInt 0 |};
    {| tyt_Channel_Name := PyStr "DMR"; Channel_Mode := PyInt 2;
       RX_Frequency_MHz := "439.5"; TX_Frequency_MHz := "431.9";
       Color_Code := PyStr "n/a"; Repeater_Slot := PyInt 2;
       CTCSS_DCS_Enc := PyStr "None" |} ].

(** The editor on the channels of [two_channels] alone. *)
Definition channels_only : editor :=
  Editor.init None (convert_channels two_channels).

(** The editor on [net_contacts] with a name in the store that [int]
    cannot read, next to the identifier of contact 5. *)
Definition unreadable_session : editor :=
  set_contact_selection {[ "5"; "five" ]}
    (Editor.init (Some net_contacts) None).

(** A TYT export with a call type that is neither 1 nor 2. *)
Definition tyt_odd_type : list tyt_contact :=
  [ {| tyt_Contact_Name := PyStr "Alice"; Call_Type := PyInt 1;
       Call_ID := PyInt 100100 |};
    {| tyt_Contact_Name := PyStr "All call"; Call_Type := PyInt 3;
       Call_ID := PyInt 16777215 |} ].

End MoreSamples.

(** * Properties *)

(** ** Strings and numbers *)

Module PyFacts.
Import Py.

Example int_plain : int "2621234" = Some 2621234.
Proof. reflexivity. Qed.
Example int_blank_sign : int "  -12_000 " = Some (-12000).
Proof. reflexivity. Qed.
Example int_float_text : int "2621234.0" = None.
Proof. reflexivity. Qed.
Example int_empty : int " " = None.
Proof. reflexivity. Qed.
Example str_float : str (PyFloat 7) = "7.0".
Proof. reflexivity. Qed.
Example strip_inner : strip "  a b  " = "a b".
Proof. reflexivity. Qed.

Lemma lstrip_no_space s : no_space s → lstrip s = s.
Proof. destruct s as [|c r]; simpl; [done|]. by destruct (isspace c). Qed.

Lemma rstrip_no_space s : no_space s → rstrip s = s.
Proof.
  induction s as [|c r IH]; simpl; [done|].
  intros [Hc Hr]%andb_True. rewrite (IH Hr).
  destruct r; [|done]. by destruct (isspace c).
Qed.

Lemma strip_no_space s : no_space s → strip s = s.
Proof. intros H. unfold strip. by rewrite lstrip_no_space, rstrip_no_space. Qed.

Lemma digit_pretty_N_char d : (d < 10)%N → digit (pretty_N_char d) = Some d.
Proof.
  intros Hd.
  assert (d = 0 ∨ d = 1 ∨ d = 2 ∨ d = 3 ∨ d = 4 ∨ d = 5 ∨ d = 6 ∨ d = 7
          ∨ d = 8 ∨ d = 9)%N as Hcases by lia.
  repeat (destruct Hcases as [->|Hcases]; [reflexivity|]). by subst.
Qed.

Lemma isspace_pretty_N_char d : isspace (pretty_N_char d) = false.
Proof. unfold pretty_N_char. by repeat case_match. Qed.

Lemma no_space_pretty_N_go x s : no_space s → no_space (pretty_N_go x s).
Proof.
  revert s. induction (N.lt_wf_0 x) as [x _ IH]; intros s Hs.
  destruct (decide (x = 0)%N) as [->|Hx]; [done|].
  rewrite pretty_N_go_step by lia. apply IH.
  - apply N.div_lt; lia.
  - simpl. by rewrite isspace_pretty_N_char.
Qed.

(** Reading back the digits that [pretty] wrote. *)
Lemma int_digits_pretty_N_go x s :
  (0 < x)%N →
  int_digits AtStart 0 (pretty_N_go x s) = int_digits AfterDigit x s.
Proof.
  revert s. induction (N.lt_wf_0 x) as [x _ IH]; intros s Hx.
  rewrite pretty_N_go_step by done.
  assert (Hd : (x `mod` 10 < 10)%N) by (apply N.mod_lt; lia).
  destruct (decide (x `div` 10 = 0)%N) as [Hq|Hq].
  - rewrite Hq, pretty_N_go_0. simpl.
    rewrite (digit_pretty_N_char _ Hd). f_equal.
    rewrite (N.div_mod x 10) at 2 by done. rewrite Hq. lia.
  - rewrite IH; [|apply N.div_lt; lia|by apply N.neq_0_lt_0]. simpl.
    rewrite (digit_pretty_N_char _ Hd). f_equal.
    rewrite (N.div_mod x 10) at 3 by done. lia.
Qed.

Lemma pretty_N_go_head x s :
  (0 < x)%N → ∃ d r, (d < 10)%N ∧ pretty_N_go x s = String (pretty_N_char d) r.
Proof.
  revert s. induction (N.lt_wf_0 x) as [x _ IH]; intros s Hx.
  rewrite pretty_N_go_step by done.
  destruct (decide (x `div` 10 = 0)%N) as [Hq|Hq].
  - rewrite Hq, pretty_N_go_0. eexists _, _. split; [|done].
    apply N.mod_lt; lia.
  - apply IH; [apply N.div_lt; lia|by apply N.neq_0_lt_0].
Qed.

Lemma int_pretty_positive p : int (pretty (Zpos p)) = Some (Zpos p).
Proof.
  unfold pretty, pretty_Z, pretty, pretty_positive, pretty, pretty_N.
  rewrite decide_False by done.
  unfold int. rewrite strip_no_space by by apply no_space_pretty_N_go.
  destruct (pretty_N_go_head (Npos p) EmptyString) as (d & r & Hd & Hr); [lia|].
  rewrite Hr.
  assert (pretty_N_char d ≠ "-"%char ∧ pretty_N_char d ≠ "+"%char) as [??].
  { pose proof (digit_pretty_N_char d Hd) as Hdig.
    split; intros Heq; rewrite Heq in Hdig; discriminate. }
  rewrite !bool_decide_eq_false_2 by done.
  rewrite <-Hr, int_digits_pretty_N_go by lia. done.
Qed.

(** [int(str(z)) == z] for every integer [z]. *)
Lemma int_str_int z : int (str (PyInt z)) = Some z.
Proof.
  destruct z as [|p|p]; [done|apply int_pretty_positive|].
  simpl. unfold pretty, pretty_Z, pretty, pretty_positive, pretty, pretty_N.
  rewrite decide_False by done.
  unfold int. rewrite strip_no_space.
  - change ("-" +:+ ?s) with (String "-" s). cbn [bool_decide decide_rel].
    rewrite bool_decide_eq_true_2 by done.
    rewrite int_digits_pretty_N_go by lia. done.
  - change ("-" +:+ ?s) with (String "-" s). simpl.
    by apply no_space_pretty_N_go.
Qed.


End PyFacts.

(** ** The selection store *)

Module SelectionFacts.
Import Py Converter SelectionManager Editor Samples.

Lemma toggle_selection_twice (id : pyval) (s : gset string) :
  toggle_selection id (toggle_selection id s) = s.
Proof.
  unfold toggle_selection.
  destruct (decide (str id ∈ s)) as [Hin|Hout].
  - rewrite (bool_decide_eq_true_2 _ Hin).
    rewrite bool_decide_eq_false_2 by set_solver.
    apply set_eq. intros x. destruct (decide (x = str id)); set_solver.
  - rewrite (bool_decide_eq_false_2 _ Hout).
    rewrite bool_decide_eq_true_2 by set_solver.
    set_solver.
Qed.

Lemma is_selected_toggle (id : pyval) (s : gset string) :
  is_selected id (toggle_selection id s) = negb (is_selected id s).
Proof.
  unfold is_selected, toggle_selection.
  destruct (decide (str id ∈ s)) as [Hin|Hout].
  - rewrite !(bool_decide_eq_true_2 _ Hin). simpl.
    apply bool_decide_eq_false_2. set_solver.
  - rewrite !(bool_decide_eq_false_2 _ Hout). simpl.
    apply bool_decide_eq_true_2. set_solver.
Qed.

(** C8: two [toggle_selection] calls on the same identifier leave
    [is_selected] of that identifier as it was, for every store and every
    identifier. *)
Theorem toggle_twice_is_selected (id : pyval) (s : gset string) :
  is_selected id (toggle_selection id (toggle_selection id s))
  = is_selected id s.
Proof. by rewrite !is_selected_toggle, negb_involutive. Qed.

Lemma size_add (s : gset string) (x : string) :
  (size (s ∪ {[x]}) ≤ S (size s))%nat.
Proof.
  rewrite size_union_alt.
  assert (size (({[x]} : gset string) ∖ s) ≤ 1)%nat; [|lia].
  rewrite <-(size_singleton (C:=gset string) x).
  apply subseteq_size. set_solver.
Qed.

Lemma add_visible_contacts_bounds ids (s : gset string) :
  s ⊆ add_visible_contacts ids s
  ∧ add_visible_contacts ids s ⊆ s ∪ list_to_set ids
  ∧ ((size s ≤ MAX_CONTACTS)%nat →
     (size (add_visible_contacts ids s) ≤ MAX_CONTACTS)%nat).
Proof.
  revert s. induction ids as [|x ids IH]; intros s; simpl.
  { split_and!; [done|set_solver|done]. }
  case_bool_decide as Hlt.
  - destruct (IH (s ∪ {[x]})) as (H1 & H2 & H3).
    split_and!; [set_solver|set_solver|].
    intros _. apply H3. pose proof (size_add s x). lia.
  - split_and!; [done|set_solver|done].
Qed.

Lemma toggle_contact_bound id e :
  (size (contact_selection e) ≤ MAX_CONTACTS)%nat →
  (size (contact_selection (toggle_contact_selection id e).2) ≤ MAX_CONTACTS)%nat.
Proof.
  intros Hle. unfold toggle_contact_selection, is_selected, toggle_selection.
  simpl. destruct (decide (id ∈ contact_selection e)) as [Hin|Hout].
  - rewrite !(bool_decide_eq_true_2 _ Hin). simpl.
    etrans; [apply subseteq_size|exact Hle]. set_solver.
  - rewrite !(bool_decide_eq_false_2 _ Hout). simpl.
    case_bool_decide as Hfull; simpl; [done|].
    pose proof (size_add (contact_selection e) id). lia.
Qed.

(** The loop adds the identifiers of a prefix of the visible rows, in
    row order: the prefix ends at the first row found with the store at
    the limit. *)
Lemma add_visible_contacts_prefix ids (s : gset string) :
  ∃ k, (k ≤ length ids)%nat
    ∧ add_visible_contacts ids s = s ∪ list_to_set (take k ids)
    ∧ (∀ j, (j < k)%nat →
         (size (s ∪ list_to_set (take j ids)) < MAX_CONTACTS)%nat)
    ∧ ((k < length ids)%nat →
         (MAX_CONTACTS ≤ size (s ∪ list_to_set (take k ids)))%nat).
Proof.
  revert s. induction ids as [|x ids IH]; intros s.
  - exists 0%nat. simpl. split_and!; [lia|set_solver|lia|lia].
  - cbn [add_visible_contacts]. case_bool_decide as Hlt.
    + destruct (IH (s ∪ {[x]})) as (k & Hk & Heq & Hbelow & Hstop).
      assert (Hcons : ∀ j, s ∪ list_to_set (take (S j) (x :: ids))
                          = s ∪ {[x]} ∪ list_to_set (take j ids)).
      { intros j. simpl. set_solver. }
      exists (S k). split_and!.
      * simpl. lia.
      * by rewrite Hcons.
      * intros [|j] Hj.
        -- simpl. by rewrite (right_id_L ∅ (∪)).
        -- rewrite Hcons. apply Hbelow. lia.
      * intros Hj. rewrite Hcons. apply Hstop. simpl in Hj. lia.
    + exists 0%nat. simpl. rewrite (right_id_L ∅ (∪)).
      split_and!; [lia|done|lia|lia].
Qed.

(** A filter change leaves the editor as it was, when the search raises
    or the tab does not exist, or replaces the contact view. *)
Lemma filter_contacts_cases contains e :
  filter_contacts contains e = e
  ∨ ∃ view, filter_contacts contains e = set_contacts_df (Some view) e.
Proof.
  unfold filter_contacts.
  destruct (original_contacts_df e) as [original|]; [|by left].
  cbv zeta. destruct (if bool_decide _ then _ else _) as [filtered|].
  - right. eauto.
  - by left.
Qed.

Lemma step_bound contains e a :
  (size (contact_selection e) ≤ MAX_CONTACTS)%nat →
  (size (contact_selection (step contains e a)) ≤ MAX_CONTACTS)%nat.
Proof.
  intros Hle. destruct a as [id| | |search type]; simpl.
  - by apply toggle_contact_bound.
  - unfold select_all_contacts. destruct (original_contacts_df e); [|done].
    simpl. by apply add_visible_contacts_bounds.
  - unfold deselect_all_contacts. destruct (original_contacts_df e); [|done].
    cbn [set_contact_selection contact_selection]. unfold deselect_all.
    rewrite size_empty. lia.
  - destruct (filter_contacts_cases contains
                (set_contacts_filter_vars search type e)) as [->|[view ->]];
      done.
Qed.

Lemma run_bound contains actions e :
  (size (contact_selection e) ≤ MAX_CONTACTS)%nat →
  (size (contact_selection (run contains actions e)) ≤ MAX_CONTACTS)%nat.
Proof.
  unfold run. revert e. induction actions as [|a actions IH]; intros e He.
  - done.
  - simpl. apply IH. by apply step_bound.
Qed.

End SelectionFacts.

(** ** The contact limit in the editor *)

Module LimitFacts.
Import Py Converter SelectionManager Editor Samples SelectionFacts.

(** The identifiers 1 to n, selected at once on an empty store, are n
    members. *)
Lemma many_ids_NoDup n : NoDup (str <$> many_ids n).
Proof.
  unfold many_ids. rewrite <-list_fmap_compose.
  apply NoDup_fmap_2_strong; [|apply NoDup_seq].
  intros i j _ _ Hij. simpl in Hij. apply (inj pretty) in Hij. lia.
Qed.

Lemma size_select_all_many_ids n :
  size (select_all (many_ids n) SelectionManager.init) = n.
Proof.
  unfold select_all, SelectionManager.init. rewrite (left_id_L ∅ (∪)).
  rewrite size_list_to_set by apply many_ids_NoDup.
  unfold many_ids. by rewrite !length_fmap, length_seq.
Qed.

Lemma elem_of_select_all_many_ids n z :
  str (PyInt z) ∈ select_all (many_ids n) SelectionManager.init
  ↔ 1 ≤ z ≤ Z.of_nat n.
Proof.
  unfold select_all, SelectionManager.init, many_ids.
  rewrite (left_id_L ∅ (∪)), elem_of_list_to_set, <-list_fmap_compose.
  rewrite list_elem_of_fmap. setoid_rewrite elem_of_seq. split.
  - intros (i & Hi & ?). simpl in Hi. apply (inj pretty) in Hi. lia.
  - intros ?. exists (Z.to_nat z). simpl. split; [f_equal|]; lia.
Qed.

Lemma size_toggle_selection_new (id : pyval) (s : gset string) :
  str id ∉ s → size (toggle_selection id s) = S (size s).
Proof.
  intros Hout. unfold toggle_selection.
  rewrite (bool_decide_eq_false_2 _ Hout).
  rewrite size_union by set_solver. rewrite size_singleton. lia.
Qed.

(** C2, as stated, fails: straight on the store, [select_all] of 1025
    identifiers into an empty store, or one more [toggle_selection] on a
    store of 1024, leaves more than [MAX_CONTACTS] identifiers in it. *)
Lemma store_has_no_limit :
  (MAX_CONTACTS < size (select_all (many_ids 1025) SelectionManager.init))%nat
  ∧ (MAX_CONTACTS <
     size (toggle_selection (PyInt 1025)
             (select_all (many_ids 1024) SelectionManager.init)))%nat.
Proof.
  pose proof (size_select_all_many_ids 1025) as Hall.
  pose proof (size_select_all_many_ids 1024) as Hfull.
  pose proof (elem_of_select_all_many_ids 1024 1025) as Hmem.
  revert Hall Hfull Hmem.
  generalize (select_all (many_ids 1025) SelectionManager.init).
  generalize (select_all (many_ids 1024) SelectionManager.init).
  intros full all Hall Hfull Hmem. split.
  - rewrite Hall. unfold MAX_CONTACTS. lia.
  - rewrite size_toggle_selection_new, Hfull; [unfold MAX_CONTACTS; lia|].
    rewrite Hmem. lia.
Qed.

(** C2, amended: through the editor (clicks, Select All Visible, Deselect
    All, filter changes, in any order from a fresh editor) the contact
    store never holds more than [MAX_CONTACTS] identifiers.  A click on a
    selected contact removes it; a click on a contact that is not
    selected is refused when the store holds [MAX_CONTACTS] identifiers
    or more, and the editor is then left as it was; otherwise it adds the
    contact.  Select All Visible adds the identifiers of the visible rows
    in row order, and stops at the first row that it finds with the store
    at the limit: the rows from there on are skipped, and nothing else of
    the editor changes.  Straight on the store there is no limit:
    [select_all] adds every identifier that it is given, and
    [toggle_selection] adds any identifier that is not in the store. *)
Theorem editor_keeps_contact_limit
    (contains : matcher)
    (contacts : option (list contact)) (channels : option (list channel))
    (actions : list action) :
  (size (contact_selection (run contains actions (Editor.init contacts channels)))
   ≤ MAX_CONTACTS)%nat
  ∧ (∀ e id,
       toggle_contact_selection id e
       = if bool_decide (id ∈ contact_selection e)
         then (Toggled,
               set_contact_selection (contact_selection e ∖ {[id]}) e)
         else if bool_decide (MAX_CONTACTS ≤ size (contact_selection e))%nat
         then (LimitReached, e)
         else (Toggled,
               set_contact_selection (contact_selection e ∪ {[id]}) e))
  ∧ (∀ e, original_contacts_df e = None → select_all_contacts e = e)
  ∧ (∀ e original, original_contacts_df e = Some original →
       let visible_ids := (λ c, str (ID c)) <$> default [] (contacts_df e) in
       ∃ k, (k ≤ length visible_ids)%nat
         ∧ select_all_contacts e
           = set_contact_selection
               (contact_selection e ∪ list_to_set (take k visible_ids)) e
         ∧ (∀ j, (j < k)%nat →
              (size (contact_selection e ∪ list_to_set (take j visible_ids))
               < MAX_CONTACTS)%nat)
         ∧ ((k < length visible_ids)%nat →
              (MAX_CONTACTS
               ≤ size (contact_selection e
                       ∪ list_to_set (take k visible_ids)))%nat))
  ∧ (∀ (id_list : list pyval) (s : gset string) id,
       id ∈ id_list → str id ∈ select_all id_list s)
  ∧ (∀ (id : pyval) (s : gset string),
       str id ∉ s → toggle_selection id s = s ∪ {[str id]}).
Proof.
  split_and!.
  - apply run_bound. cbn [Editor.init contact_selection].
    unfold SelectionManager.init. rewrite size_empty. lia.
  - intros e id. unfold toggle_contact_selection, is_selected, toggle_selection.
    cbn [str]. destruct (decide (id ∈ contact_selection e)) as [Hin|Hout].
    + by rewrite !(bool_decide_eq_true_2 _ Hin).
    + rewrite !(bool_decide_eq_false_2 _ Hout). cbn [negb andb].
      by case_bool_decide.
  - intros e He. unfold select_all_contacts. by rewrite He.
  - intros e original He visible_ids. unfold select_all_contacts.
    rewrite He. fold visible_ids.
    destruct (add_visible_contacts_prefix visible_ids (contact_selection e))
      as (k & Hk & Heq & Hbelow & Hstop).
    exists k. by rewrite Heq.
  - intros id_list s id Hin. unfold select_all.
    apply elem_of_union_r, elem_of_list_to_set, list_elem_of_fmap. eauto.
  - intros id s Hout. unfold toggle_selection.
    by rewrite (bool_decide_eq_false_2 _ Hout).
Qed.

Lemma deselect_is_never_blocked_aux (contact_id_str : string) (e : editor) :
  contact_id_str ∈ contact_selection e →
  toggle_contact_selection contact_id_str e
  = (Toggled,
     set_contact_selection (contact_selection e ∖ {[contact_id_str]}) e).
Proof.
  intros Hin. unfold toggle_contact_selection, is_selected, toggle_selection.
  cbn [str]. by rewrite !(bool_decide_eq_true_2 _ Hin).
Qed.

(** C10: a click on a contact that is selected always goes through and
    removes it from the store, whatever the size of the store; the limit
    only ever refuses a click that would add. *)
Theorem deselect_is_never_blocked (contact_id_str : string) (e : editor) :
  contact_id_str ∈ contact_selection e →
  toggle_contact_selection contact_id_str e
  = (Toggled,
     set_contact_selection (contact_selection e ∖ {[contact_id_str]}) e).
Proof.
  intros Hin. unfold toggle_contact_selection, is_selected, toggle_selection.
  cbn [str]. by rewrite !(bool_decide_eq_true_2 _ Hin).
Qed.

(** The store of [full_editor] holds exactly [MAX_CONTACTS] identifiers,
    and a click on one of them still deselects it. *)
Lemma deselect_is_never_blocked_witness :
  size (contact_selection full_editor) = MAX_CONTACTS
  ∧ str (PyInt 5) ∈ contact_selection full_editor
  ∧ toggle_contact_selection (str (PyInt 5)) full_editor
    = (Toggled,
       set_contact_selection
         (contact_selection full_editor ∖ {[ str (PyInt 5) ]}) full_editor).
Proof.
  assert (Hin : str (PyInt 5) ∈ contact_selection full_editor).
  { exact (proj2 (elem_of_select_all_many_ids 1024 5) ltac:(lia)). }
  split_and!.
  - exact (size_select_all_many_ids 1024).
  - exact Hin.
  - exact (deselect_is_never_blocked (str (PyInt 5)) full_editor Hin).
Defined.

Lemma limit_reached_iff (contact_id_str : string) (e : editor) :
  (toggle_contact_selection contact_id_str e).1 = LimitReached
  ↔ (contact_id_str ∉ contact_selection e)
    ∧ (MAX_CONTACTS ≤ size (contact_selection e))%nat.
Proof.
  unfold toggle_contact_selection, is_selected. cbn [str].
  destruct (decide (contact_id_str ∈ contact_selection e)) as [Hin|Hout].
  - rewrite (bool_decide_eq_true_2 _ Hin). simpl. naive_solver.
  - rewrite (bool_decide_eq_false_2 _ Hout). simpl.
    case_bool_decide; simpl; naive_solver.
Qed.

End LimitFacts.

(** ** Dropping duplicate keys *)

Module DuplicateFacts.
Import Py Converter Spec.

Lemma same_key_sym x y : same_key x y = same_key y x.
Proof.
  destruct x, y; simpl; try done;
    apply bool_decide_ext; naive_solver.
Qed.

Lemma same_key_trans x y z : same_key x y → same_key y z → same_key x z.
Proof.
  destruct x, y, z; simpl; try done;
    rewrite !bool_decide_spec; congruence.
Qed.

Lemma same_key_number x y a b :
  number_of x = Some a → number_of y = Some b →
  same_key x y ↔ a = b.
Proof.
  destruct x, y; simpl; try done; intros [= ->] [= ->];
    by rewrite bool_decide_spec.
Qed.

Section keys.
Context {A : Type} (key : A → pyval).

Lemma existsb_same_key k seen :
  existsb (same_key k) seen ↔ ∃ s, s ∈ seen ∧ same_key k s.
Proof.
  rewrite Is_true_true, existsb_exists.
  setoid_rewrite list_elem_of_In. setoid_rewrite Is_true_true. done.
Qed.

(** The scan with a list of keys already met keeps the rows that the
    row-by-row reading keeps, minus those whose key was already met. *)
Lemma drop_duplicates_from_keep_first seen rows :
  drop_duplicates_from key seen rows
  = filter (λ r, ¬ existsb (same_key (key r)) seen) (keep_first key rows).
Proof.
  revert seen. induction rows as [|x rest IH]; intros seen; simpl; [done|].
  destruct (existsb (same_key (key x)) seen) eqn:Hseen.
  - rewrite filter_cons_False by (rewrite Hseen; naive_solver).
    rewrite IH, list_filter_filter. apply list_filter_iff. intros r.
    split; [|naive_solver]. intros Hr. split; [done|]. intros Hrx.
    apply Hr. apply existsb_same_key.
    apply Is_true_true, existsb_same_key in Hseen as (s & Hs & Hxs).
    exists s. eauto using same_key_trans.
  - rewrite filter_cons_True by (rewrite Hseen; naive_solver).
    f_equal. rewrite IH, list_filter_filter. apply list_filter_iff. intros r.
    simpl. rewrite orb_True. naive_solver.
Qed.

Lemma drop_duplicates_keep_first rows :
  drop_duplicates key rows = keep_first key rows.
Proof.
  unfold drop_duplicates. rewrite drop_duplicates_from_keep_first.
  induction (keep_first key rows) as [|x l IH]; [done|].
  rewrite filter_cons_True by (simpl; tauto). by rewrite IH.
Qed.

Lemma keep_first_sublist rows : sublist (keep_first key rows) rows.
Proof.
  induction rows as [|x rest IH]; simpl; [done|].
  apply sublist_skip. etrans; [apply sublist_filter|done].
Qed.

Lemma drop_duplicates_sublist rows : sublist (drop_duplicates key rows) rows.
Proof. rewrite drop_duplicates_keep_first. apply keep_first_sublist. Qed.

(** No two rows that are kept hold the same number. *)
Lemma keep_first_NoDup rows :
  (∀ r, r ∈ rows → is_Some (number_of (key r))) →
  NoDup ((λ r, number_of (key r)) <$> keep_first key rows).
Proof.
  induction rows as [|x rest IH]; intros Hnum; simpl; [constructor|].
  apply NoDup_cons. split.
  - intros (y & Heq & Hy)%list_elem_of_fmap.
    apply list_elem_of_filter in Hy as [Hne Hy]. apply Hne.
    destruct (Hnum x) as [a Ha]; [left|].
    rewrite Ha in Heq. symmetry in Heq.
    by apply (same_key_number _ _ a a).
  - assert (NoDup ((λ r, number_of (key r)) <$> keep_first key rest)) as Hrest.
    { apply IH. intros r Hr. apply Hnum. by right. }
    eapply sublist_NoDup; [exact Hrest|].
    apply fmap_sublist, sublist_filter.
Qed.

End keys.

Lemma sublist_StronglySorted {A} (R : relation A) (l1 l2 : list A) :
  sublist l1 l2 → StronglySorted R l2 → StronglySorted R l1.
Proof.
  induction 1 as [|x l1 l2 Hsub IH|x l1 l2 Hsub IH]; intros Hs; [done|..].
  - apply StronglySorted_inv in Hs as [Hs Hx]. constructor; [by apply IH|].
    apply Forall_forall. intros y Hy.
    rewrite Forall_forall in Hx. apply Hx. by eapply sublist_subseteq.
  - apply StronglySorted_inv in Hs as [Hs _]. by apply IH.
Qed.

End DuplicateFacts.

(** ** Export *)

Module ExportFacts.
Import Py Converter Spec Editor Samples PyFacts DuplicateFacts.

Lemma mapM_int_elem_of (l : list string) (ints : list Z) (z : Z) :
  mapM int l = Some ints →
  z ∈ ints ↔ ∃ s, s ∈ l ∧ int s = Some z.
Proof.
  rewrite mapM_Some. induction 1 as [|s y l ints Hs _ IH].
  - split; [by intros ?%elem_of_nil|by intros (? & ?%elem_of_nil & _)].
  - rewrite elem_of_cons, IH. split.
    + intros [->|(s' & ? & ?)]; [exists s|exists s'];
        split; try done; by constructor.
    + intros (s' & [->|?]%elem_of_cons & Hz); [left; congruence|].
      right. by exists s'.
Qed.

(** The list of integer keys stands for the selection read through
    [int], and it is the thing that [sort()] puts in ascending order. *)
Lemma selected_ids_int_spec selected ids :
  selected_ids_int selected = Some ids →
  StronglySorted Z.le ids
  ∧ ∀ z, z ∈ ids ↔ ∃ s, s ∈ selected ∧ int s = Some z.
Proof.
  unfold selected_ids_int.
  destruct (mapM int (elements selected)) as [ints|] eqn:Hints; [|done].
  intros [= <-]. split; [apply (StronglySorted_merge_sort _)|].
  intros z. rewrite merge_sort_Permutation, elem_of_elements.
  rewrite elem_of_list_to_set, (mapM_int_elem_of _ _ _ Hints).
  by setoid_rewrite elem_of_elements.
Qed.

Lemma selected_ids_int_canonical selected :
  canonical selected →
  ∃ ids, selected_ids_int selected = Some ids
         ∧ ∀ z, z ∈ ids ↔ str (PyInt z) ∈ selected.
Proof.
  intros Hcan.
  assert (is_Some (mapM int (elements selected))) as [ints Hints].
  { apply mapM_is_Some, Forall_forall. intros s Hs%elem_of_elements.
    destruct (Hcan s Hs) as [z ->]. unfold compose.
    rewrite (int_str_int z). eauto. }
  assert (is_Some (selected_ids_int selected)) as [ids Hids].
  { unfold selected_ids_int. rewrite Hints. eauto. }
  exists ids. split; [done|]. intros z.
  rewrite (proj2 (selected_ids_int_spec _ _ Hids) z). split.
  - intros (s & Hs & Hz). destruct (Hcan s Hs) as [z' ->].
    rewrite int_str_int in Hz. by simplify_eq.
  - intros Hz. eexists. split; [done|apply int_str_int].
Qed.

Lemma export_rows_canonical {A} (key : A → pyval) selected original :
  canonical selected →
  (∀ r, r ∈ original → ∃ z, key r = PyInt z) →
  selected ≠ ∅ →
  export_rows key selected (Some original)
  = Some (Some (keep_first key
                  (filter (λ r, str (key r) ∈ selected) original))).
Proof.
  intros Hcan Hint Hne. unfold export_rows.
  rewrite bool_decide_eq_false_2 by done.
  destruct (selected_ids_int_canonical _ Hcan) as (ids & -> & Hids). simpl.
  rewrite drop_duplicates_keep_first. do 3 f_equal.
  induction original as [|r rest IH]; [done|].
  rewrite !filter_cons, IH by (intros; apply Hint; by right).
  destruct (Hint r) as [z Hz]; [left|].
  rewrite Hz. cbn [isin].
  destruct (decide (z ∈ ids)) as [Hin|Hout].
  - rewrite (bool_decide_eq_true_2 _ Hin).
    rewrite !decide_True; [done|..]; try done; by apply Hids.
  - rewrite (bool_decide_eq_false_2 _ Hout).
    rewrite !decide_False; [done|..]; first [by rewrite <-Hids|by intros []].
Qed.

Lemma export_rows_succeeds {A} (key : A → pyval) selected original :
  canonical selected →
  (selected ≠ ∅ → is_Some original) →
  is_Some (export_rows key selected original).
Proof.
  intros Hcan Horig. unfold export_rows. case_bool_decide as Hne; [eauto|].
  destruct (selected_ids_int_canonical _ Hcan) as (ids & -> & _).
  destruct (Horig Hne) as [df ->]. simpl. eauto.
Qed.

Lemma export_rows_sublist {A} (key : A → pyval) selected original rows :
  export_rows key selected original = Some (Some rows) →
  sublist rows (default [] original).
Proof.
  unfold export_rows. case_bool_decide; [done|].
  destruct (selected_ids_int selected) as [ids|]; [|done].
  destruct original as [df|]; [|done]. simpl. intros [= <-].
  etrans; [apply drop_duplicates_sublist|apply sublist_filter].
Qed.

Lemma import_selected_exported e fs contacts channels :
  (import_selected e fs).1.1 = Imported contacts channels →
  export_rows ID (contact_selection e) (original_contacts_df e) = Some contacts
  ∧ export_rows (λ c, PyInt (Channel_Number c)) (channel_selection e)
      (original_channels_df e) = Some channels.
Proof.
  unfold import_selected. destruct (_ && _); [done|].
  destruct (export_rows ID _ _) as [c|]; [|done].
  destruct (export_rows _ _ _) as [ch|]; [|done].
  simpl. by intros [= -> ->].
Qed.

Lemma exported_contacts_sublist e fs :
  sublist (exported_contacts (import_selected e fs).1.1)
          (default [] (original_contacts_df e)).
Proof.
  destruct ((import_selected e fs).1.1) as [| |[rows|] channels] eqn:Hout;
    simpl; try apply sublist_nil_l.
  apply import_selected_exported in Hout as [Hrows _].
  by apply export_rows_sublist in Hrows.
Qed.

Lemma exported_channels_sublist e fs :
  sublist (exported_channels (import_selected e fs).1.1)
          (default [] (original_channels_df e)).
Proof.
  destruct ((import_selected e fs).1.1) as [| |contacts [rows|]] eqn:Hout;
    simpl; try apply sublist_nil_l.
  apply import_selected_exported in Hout as [_ Hrows].
  by apply export_rows_sublist in Hrows.
Qed.

Lemma filter_elem_of_empty {A} (f : A → string) (s : gset string) (l : list A) :
  s = ∅ → filter (λ r, f r ∈ s) l = [].
Proof.
  intros Hs. induction l as [|x l IH]; [done|].
  rewrite filter_cons_False by set_solver. done.
Qed.

(** Export and filters: when the IDs of the original table are integers
    and the stores hold canonical identifiers, the contact rows that an
    export writes are the rows of the original table whose identifier is
    in the global selection, first row of each ID only, whatever the
    filtered view, the search text and the type filter are at that
    moment; they are what ends up in [Contacts.csv]. *)
Theorem export_ignores_filter
    (original : list contact) (original_channels : option (list channel))
    (contact_sel channel_sel : gset string)
    (view : option (list contact)) (channel_view : option (list channel))
    (search type channel_search channel_type : string)
    (window : bool) (fs : files) :
  (∀ c, c ∈ original → ∃ z, ID c = PyInt z) →
  canonical contact_sel →
  canonical channel_sel →
  (channel_sel ≠ ∅ → is_Some original_channels) →
  let e := {| contacts_df := view;
              channels_df := channel_view;
              original_contacts_df := Some original;
              original_channels_df := original_channels;
              contact_selection := contact_sel;
              channel_selection := channel_sel;
              contacts_search_var := search;
              contacts_filter_var := type;
              channels_search_var := channel_search;
              channels_filter_var := channel_type;
              editor_window := window |} in
  let rows :=
    keep_first ID (filter (λ c, str (ID c) ∈ contact_sel) original) in
  exported_contacts (import_selected e fs).1.1 = rows
  ∧ (contact_sel ≠ ∅ →
     (import_selected e fs).2 !! "Contacts.csv" = Some (ContactsTable rows)).
Proof.
  intros Hint Hcan Hcan_ch Horig e rows.
  unfold import_selected. cbn [e contact_selection channel_selection
    original_contacts_df original_channels_df].
  destruct (export_rows_succeeds (λ c, PyInt (Channel_Number c))
              channel_sel original_channels Hcan_ch Horig) as [channels ->].
  destruct (decide (contact_sel = ∅)) as [Hempty|Hne].
  - assert (rows = []) as Hrows.
    { unfold rows.
      by rewrite (filter_elem_of_empty (λ c, str (ID c)) _ _ Hempty). }
    rewrite Hrows. unfold export_rows at 1. rewrite !bool_decide_eq_true_2 by done.
    split; [|done]. by destruct (bool_decide (channel_sel = ∅)).
  - rewrite (bool_decide_eq_false_2 _ Hne).
    rewrite (export_rows_canonical ID _ _ Hcan Hint Hne). fold rows.
    split; [done|]. intros _. simpl.
    unfold continue_conversion_with_selection, save_csv.
    destruct channels; [rewrite lookup_insert_ne by done|];
      apply lookup_insert_eq.
Qed.

(** Contact 5 was selected, then hidden by the Group filter: the view
    holds the Net row only, and the export still writes contact 5. *)
Lemma export_ignores_filter_witness :
  contacts_df hidden_session = Some [mk_contact "Net" 91 "Group"]
  ∧ exported_contacts (import_selected hidden_session ∅).1.1
    = keep_first ID (filter (λ c, str (ID c) ∈ ({[ "5" ]} : gset string))
                       net_contacts)
  ∧ keep_first ID (filter (λ c, str (ID c) ∈ ({[ "5" ]} : gset string))
                     net_contacts)
    = [mk_contact "Eve" 5 "Private"].
Proof.
  split_and!; [by vm_compute| |by vm_compute].
  refine (proj1 (export_ignores_filter net_contacts None {[ "5" ]} ∅
    (Some [mk_contact "Net" 91 "Group"]) None EmptyString "Group"
    EmptyString "All" true ∅ _ _ _ _)).
  - intros c Hc. unfold net_contacts in Hc.
    repeat (apply elem_of_cons in Hc as [->|Hc]); [by eexists..|].
    by apply elem_of_nil in Hc.
  - intros s ->%elem_of_singleton. by exists 5.
  - intros s Hs. by apply elem_of_empty in Hs.
  - done.
Defined.

(** C1 on the DC9AL list [dc9al_with_bad_row]: its one contact is in the
    original table and its identifier, as the editor shows it, is in the
    global selection; no filter is set; the export stops on [int] of that
    identifier, exports no contact row and writes no file. *)
Theorem export_stops_on_float_identifier :
  original_contacts_df dc9al_session
  = Some [ {| Contact_Name := PyStr "DL1ABC John"; ID := PyFloat 2621234;
              ID_Type := PyStr "Private"; TS_Override := "None" |} ]
  ∧ contacts_df dc9al_session = original_contacts_df dc9al_session
  ∧ str (PyFloat 2621234) ∈ contact_selection dc9al_session
  ∧ selected_ids_int (contact_selection dc9al_session) = None
  ∧ (import_selected dc9al_session ∅).1.1 = ImportFailed
  ∧ exported_contacts (import_selected dc9al_session ∅).1.1 = []
  ∧ (import_selected dc9al_session ∅).2 = ∅.
Proof.
  split_and!; by vm_compute.
Qed.

(** C4, as stated, fails: with the rows 5 and 3 held in this order and
    both selected, the export writes 5 before 3. *)
Lemma export_is_not_sorted_by_id :
  ID <$> exported_contacts (import_selected shuffled_session ∅).1.1
  = [PyInt 5; PyInt 3]
  ∧ ¬ Sorted Z.le [5; 3].
Proof.
  split; [by vm_compute|].
  intros [_ Hhd%HdRel_inv]%Sorted_inv. lia.
Qed.

Lemma channel_numbers_sorted a n :
  StronglySorted Z.lt (Z.of_nat <$> seq a n).
Proof.
  revert a. induction n as [|n IH]; intros a; simpl; constructor; [done|].
  apply Forall_forall. intros z (i & -> & Hi%elem_of_seq)%list_elem_of_fmap.
  lia.
Qed.

Lemma convert_channel_row_number float_rows number row ch :
  convert_channel_row float_rows number row = Some ch →
  Channel_Number ch = number.
Proof.
  unfold convert_channel_row. cbv zeta.
  destruct (digital_field _ (handed _ (Color_Code row))); [|done].
  destruct (digital_field _ (handed _ (Repeater_Slot row))); [|done].
  simpl. by intros [= <-].
Qed.

Lemma convert_channels_numbers df chs :
  convert_channels df = Some chs →
  Channel_Number <$> chs = channel_numbers (length df).
Proof.
  unfold convert_channels, channel_numbers.
  generalize (channel_float_rows df) as float_rows. intros float_rows.
  generalize 1%nat.
  revert chs. induction df as [|row df IH]; intros chs a; simpl.
  - by intros [= <-].
  - destruct (convert_channel_row _ _ row) as [ch|] eqn:Hch; [|done]. simpl.
    destruct (mapM _ _) as [rest|] eqn:Hrest; [|done]. simpl.
    intros [= <-]. simpl. f_equal.
    + by apply convert_channel_row_number in Hch.
    + by apply (IH _ (S a)).
Qed.

(** C4, amended: the export keeps the rows in the order of the original
    table (it writes a sublist of it), so the contact rows are ascending
    by ID whenever the original contact table is; the channel rows are
    always ascending by Channel Number, since the mapper numbers the
    original channel table 1, 2, 3, ... in row order. *)
Theorem export_keeps_table_order
    (e : editor) (fs : files) (tyt : list tyt_channel) :
  original_channels_df e = convert_channels tyt →
  let r := (import_selected e fs).1.1 in
  sublist (exported_contacts r) (default [] (original_contacts_df e))
  ∧ (∀ R : relation contact,
       StronglySorted R (default [] (original_contacts_df e)) →
       StronglySorted R (exported_contacts r))
  ∧ StronglySorted Z.lt (Channel_Number <$> exported_channels r).
Proof.
  intros Hch r. split_and!.
  - apply exported_contacts_sublist.
  - intros R. apply sublist_StronglySorted, exported_contacts_sublist.
  - eapply sublist_StronglySorted;
      [apply fmap_sublist, exported_channels_sublist|].
    rewrite Hch. destruct (convert_channels tyt) as [chs|] eqn:Hchs; simpl.
    + rewrite (convert_channels_numbers _ _ Hchs).
      apply channel_numbers_sorted.
    + constructor.
Qed.

Lemma export_keeps_table_order_witness :
  original_channels_df both_session = convert_channels two_channels
  ∧ sublist (exported_contacts (import_selected both_session ∅).1.1)
      (default [] (original_contacts_df both_session))
  ∧ (∀ R : relation contact,
       StronglySorted R (default [] (original_contacts_df both_session)) →
       StronglySorted R
         (exported_contacts (import_selected both_session ∅).1.1))
  ∧ StronglySorted Z.lt
      (Channel_Number <$>
         exported_channels (import_selected both_session ∅).1.1).
Proof.
  split; [reflexivity|].
  exact (export_keeps_table_order both_session ∅ two_channels eq_refl).
Defined.

Example both_session_exported :
  ID <$> exported_contacts (import_selected both_session ∅).1.1
  = [PyInt 5; PyInt 3]
  ∧ Channel_Number <$> exported_channels (import_selected both_session ∅).1.1
    = [1; 2].
Proof. split; by vm_compute. Qed.

End ExportFacts.

(** ** The contact mappers *)

Module MappingFacts.
Import Py Converter Spec Editor Samples PyFacts DuplicateFacts.

Lemma append_cons c r t : String c r +:+ t = String c (r +:+ t).
Proof. reflexivity. Qed.

Lemma rstrip_idemp s : rstrip (rstrip s) = rstrip s.
Proof.
  induction s as [|c r IH]; [done|]. simpl.
  destruct (rstrip r) as [|a t] eqn:Hr.
  - destruct (isspace c) eqn:Hc; simpl; [done|]. by rewrite Hc.
  - change (rstrip (String c (String a t)))
      with (match rstrip (String a t) with
            | EmptyString =>
                if isspace c then EmptyString else String c EmptyString
            | String a' t' => String c (String a' t')
            end).
    by rewrite IH.
Qed.

(** A stripped string is empty or starts with a character that is not a
    blank. *)
Lemma strip_head s :
  strip s = EmptyString
  ∨ ∃ c r, strip s = String c r ∧ isspace c = false.
Proof.
  unfold strip. induction s as [|c r IH]; simpl; [by left|].
  destruct (isspace c) eqn:Hc; [done|]. simpl.
  right. destruct (rstrip r); [rewrite Hc|]; eauto.
Qed.

Lemma lstrip_strip s : lstrip (strip s) = strip s.
Proof.
  destruct (strip_head s) as [->|(c & r & -> & Hc)]; [done|].
  simpl. by rewrite Hc.
Qed.

Lemma rstrip_strip s : rstrip (strip s) = strip s.
Proof. apply rstrip_idemp. Qed.

Lemma rstrip_app s t :
  rstrip t ≠ EmptyString → rstrip (s +:+ t) = s +:+ rstrip t.
Proof.
  intros Ht. induction s as [|c r IH]; [done|].
  rewrite !append_cons. simpl. rewrite IH.
  destruct r; [|done]. change (EmptyString +:+ rstrip t) with (rstrip t).
  by destruct (rstrip t).
Qed.

(** Joining two stripped parts with one space leaves nothing to strip. *)
Lemma strip_join a b :
  strip a ≠ EmptyString → strip b ≠ EmptyString →
  strip (strip a +:+ " " +:+ strip b) = strip a +:+ " " +:+ strip b.
Proof.
  intros Ha Hb. unfold strip at 1.
  destruct (strip_head a) as [?|(c & r & Hcr & Hc)]; [done|].
  rewrite Hcr, append_cons. simpl lstrip. rewrite Hc.
  rewrite <-append_cons, <-Hcr. rewrite rstrip_app.
  - f_equal. change (" " +:+ strip b) with (String " " (strip b)).
    simpl. rewrite rstrip_strip. by destruct (strip b).
  - change (" " +:+ strip b) with (String " " (strip b)).
    simpl. rewrite rstrip_strip. by destruct (strip b).
Qed.

Lemma strip_join_empty a b :
  strip a = EmptyString →
  strip (strip a +:+ " " +:+ strip b) = strip b.
Proof.
  intros ->. change (EmptyString +:+ " " +:+ strip b)
    with (String " " (strip b)).
  unfold strip at 1. simpl. by rewrite lstrip_strip, rstrip_strip.
Qed.

(** The name built by the lambda, by its two stripped parts: the outer
    [strip] only matters when the first part is blank. *)
Lemma contact_name_of_parts callsign name :
  contact_name_of callsign name
  = let c := strip (str callsign) in
    let n := strip (str name) in
    if notna name && negb (bool_decide (n = EmptyString))
    then (if bool_decide (c = EmptyString) then n else c +:+ " " +:+ n)
    else c.
Proof.
  unfold contact_name_of. cbv zeta.
  destruct (notna name); simpl; [|done].
  case_bool_decide as Hn; simpl; [done|].
  case_bool_decide as Hc.
  - by apply strip_join_empty.
  - by apply strip_join.
Qed.

Lemma filter_fmap {A B} (h : A → B) (P : B → Prop)
    `{∀ x, Decision (P x)} (l : list A) :
  filter P (h <$> l) = h <$> filter (λ x, P (h x)) l.
Proof.
  induction l as [|x l IH]; [done|].
  rewrite fmap_cons, !filter_cons, IH. by destruct (decide (P (h x))).
Qed.

(** [keep_first] goes through a map that does not change which keys are
    alike. *)
Lemma keep_first_fmap {A B} (h : A → B) (k1 : A → pyval) (k2 : B → pyval) l :
  (∀ x y, same_key (k2 (h x)) (k2 (h y)) = same_key (k1 x) (k1 y)) →
  keep_first k2 (h <$> l) = h <$> keep_first k1 l.
Proof.
  intros Hkey. induction l as [|x l IH]; [done|].
  rewrite fmap_cons. cbn [keep_first]. rewrite fmap_cons. f_equal.
  rewrite IH, filter_fmap.
  f_equal. apply list_filter_iff. intros y. by rewrite Hkey.
Qed.

Lemma dtype_cases column :
  numeric_dtype column = PyInt ∨ numeric_dtype column = PyFloat.
Proof. unfold numeric_dtype. destruct (forallb _ _); eauto. Qed.

(** The rows left by the two filters of the mapper are the rows whose
    Radio ID reads as a number above 0. *)
Lemma dc9al_filters (float_rows : bool) (dtype : Z → pyval)
    (df : list dc9al_contact) :
  dtype = PyInt ∨ dtype = PyFloat →
  filter (λ c, positive_id c)
    (filter (λ c, notna (ID c))
       (zip_with (λ n i, {| Contact_Name := PyStr n; ID := i;
                            ID_Type := PyStr "Private";
                            TS_Override := "None" |})
          (dc9al_contact_name float_rows <$> df)
          ((λ x, from_option dtype PyNaN (to_numeric_cell x))
             <$> (Radio_ID <$> df))))
  = contact_of dtype <$> omap (dc9al_readable float_rows) df.
Proof.
  intros Hd. induction df as [|row df IH]; [done|].
  rewrite !fmap_cons. cbn [zip_with].
  change (omap (dc9al_readable float_rows) (row :: df))
    with (match dc9al_readable float_rows row with
          | Some p => p :: omap (dc9al_readable float_rows) df
          | None => omap (dc9al_readable float_rows) df
          end).
  unfold dc9al_readable at 1.
  destruct (to_numeric_cell (Radio_ID row)) as [z|];
    cbn [from_option mbind option_bind].
  - rewrite filter_cons_True by (by destruct Hd as [-> | ->]).
    destruct (decide (0 < z)) as [Hz|Hz].
    + rewrite filter_cons_True, (bool_decide_eq_true_2 _ Hz), fmap_cons, IH;
        [done|].
      unfold positive_id. destruct Hd as [-> | ->]; simpl;
        by apply bool_decide_pack.
    + rewrite filter_cons_False, (bool_decide_eq_false_2 _ Hz), IH; [done|].
      unfold positive_id. destruct Hd as [-> | ->]; simpl;
        by intros ?%bool_decide_unpack.
  - rewrite filter_cons_False by (by intros []). apply IH.
Qed.

(** The conversion of a DC9AL list with rows, as one pass over its
    readable rows. *)
Lemma dc9al_pipeline (df : list dc9al_contact) :
  df ≠ [] →
  _convert_dc9al_contacts df
  = Some (clean_contact_name
      <$> (contact_of (numeric_dtype (Radio_ID <$> df))
             <$> keep_first (λ p, PyInt p.2)
                   (omap (dc9al_readable (dc9al_float_rows df)) df))).
Proof.
  intros Hdf. unfold _convert_dc9al_contacts, to_numeric. cbv zeta.
  rewrite (dc9al_filters _ _ _ (dtype_cases _)), drop_duplicates_keep_first.
  rewrite (keep_first_fmap (contact_of (numeric_dtype (Radio_ID <$> df)))
             (λ p, PyInt p.2) ID).
  - by destruct df.
  - intros [n a] [m b]. simpl.
    by destruct (dtype_cases (Radio_ID <$> df)) as [-> | ->].
Qed.

Lemma has_char_app c a b :
  has_char c (a +:+ b) = has_char c a || has_char c b.
Proof.
  induction a as [|d a IH]; [done|].
  rewrite append_cons. simpl. by rewrite IH, orb_assoc.
Qed.

Lemma replace_removes c by_ s :
  has_char c by_ = false → has_char c (replace c by_ s) = false.
Proof.
  intros Hby. induction s as [|d r IH]; [done|]. cbn [replace].
  case_bool_decide as Hd.
  - by rewrite has_char_app, Hby, IH.
  - cbn [has_char]. by rewrite (bool_decide_eq_false_2 _ Hd), IH.
Qed.

Lemma replace_adds_none d c by_ s :
  has_char d by_ = false → has_char d s = false →
  has_char d (replace c by_ s) = false.
Proof.
  intros Hby. induction s as [|a r IH]; [done|]. cbn [replace has_char].
  intros [Ha Hr]%orb_false_elim. destruct (decide (a = c)) as [Hac|Hac].
  - rewrite (bool_decide_eq_true_2 _ Hac). by rewrite has_char_app, Hby, IH.
  - rewrite (bool_decide_eq_false_2 _ Hac). cbn [has_char].
    by rewrite Ha, IH.
Qed.

(** A cleaned name holds no double quote, no single quote, no comma. *)
Lemma clean_name_chars s :
  has_char "034" (clean_name s) = false
  ∧ has_char "'" (clean_name s) = false
  ∧ has_char "," (clean_name s) = false.
Proof.
  unfold clean_name. split_and!.
  - do 2 (apply replace_adds_none; [done|]). by apply replace_removes.
  - apply replace_adds_none; [done|]. by apply replace_removes.
  - by apply replace_removes.
Qed.

(** C6 on a DC9AL list that has its header line and no row: the mapper
    raises and there is no contact table, where the claim has the table
    of the rows that qualify, an empty one; the TYT mapper returns the
    empty table on such a list.  The empty list is the only one on which
    the mapper raises.  On a row with a missing Callsign the name starts
    with the text nan. *)
Theorem dc9al_mapper_gives_up_on_empty_table :
  _convert_dc9al_contacts [] = None
  ∧ _convert_tyt_contacts [] = []
  ∧ (∀ df, _convert_dc9al_contacts df = None ↔ df = [])
  ∧ _convert_dc9al_contacts
      [ {| Callsign := PyNaN; Name := PyStr "John";
           Radio_ID := IntegerID 2621234 |} ]
    = Some [ {| Contact_Name := PyStr "nan John"; ID := PyInt 2621234;
                ID_Type := PyStr "Private"; TS_Override := "None" |} ].
Proof.
  split_and!; [done|done| |by vm_compute].
  intros df. split; [|by intros ->].
  destruct df as [|row df]; [done|].
  by rewrite dc9al_pipeline.
Qed.

(** C9, as stated, fails for the TYT dialect, whose mapper copies Call ID
    as it is: a zero Call ID and a repeated one both come through. *)
Lemma tyt_ids_unchecked :
  ¬ ids_positive_unique (_convert_tyt_contacts tyt_unchecked)
  ∧ ID <$> _convert_tyt_contacts tyt_unchecked
    = [PyInt 100100; PyInt 0; PyInt 100100].
Proof.
  split; [|done]. intros [Hpos _].
  apply Forall_cons in Hpos as [_ Hpos].
  apply Forall_cons in Hpos as [(z & Hz & Hlt) _].
  simpl in Hz. injection Hz as <-. lia.
Qed.

(** C9, amended: a DC9AL list that has rows, each with a Radio ID that
    reads as an integer, is converted, and in the contact table returned
    every ID is an integer above 0 and no two rows hold the same ID; the
    TYT mapper copies Call ID unchecked. *)
Theorem dc9al_ids_positive_unique (df : list dc9al_contact) :
  integer_radio_ids df →
  (df ≠ [] → is_Some (_convert_dc9al_contacts df))
  ∧ ∀ gd77_contacts,
      _convert_dc9al_contacts df = Some gd77_contacts →
      integer_ids_positive_unique gd77_contacts.
Proof.
  intros Hint. destruct (decide (df = [])) as [->|Hdf]; [by split|].
  rewrite (dc9al_pipeline _ Hdf).
  assert (numeric_dtype (Radio_ID <$> df) = PyInt) as ->.
  { unfold numeric_dtype. rewrite (proj2 (forallb_forall _ _)); [done|].
    intros x (row & -> & Hrow)%list_elem_of_In%list_elem_of_fmap.
    unfold integer_radio_ids in Hint. rewrite Forall_forall in Hint.
    by destruct (Hint row Hrow) as [z ->]. }
  split; [by eexists|]. intros gd77_contacts [= <-]. split.
  - apply Forall_forall. intros c (c' & -> & Hc')%list_elem_of_fmap.
    apply list_elem_of_fmap in Hc' as ([n z] & -> & Hp).
    apply (sublist_subseteq _ _ (keep_first_sublist _ _)) in Hp.
    apply list_elem_of_omap in Hp as (row & _ & Hrow).
    unfold dc9al_readable in Hrow.
    destruct (to_numeric_cell (Radio_ID row)) as [z'|]; [|done].
    simpl in Hrow. case_bool_decide; [|done]. injection Hrow as _ ->.
    by exists z.
  - rewrite <-!list_fmap_compose.
    apply (NoDup_fmap_1 number_of). rewrite <-list_fmap_compose.
    apply (keep_first_NoDup (λ p : string * Z, PyInt p.2)). by eexists.
Qed.

(** A list with a zero Radio ID and a repeated one: the rows 2621234 and
    7 are returned. *)
Lemma dc9al_ids_positive_unique_witness :
  integer_radio_ids dc9al_integers
  ∧ dc9al_integers ≠ []
  ∧ (λ gd77_contacts : list contact, ID <$> gd77_contacts)
      <$> _convert_dc9al_contacts dc9al_integers
    = Some [PyInt 2621234; PyInt 7]
  ∧ (dc9al_integers ≠ [] → is_Some (_convert_dc9al_contacts dc9al_integers))
  ∧ ∀ gd77_contacts,
      _convert_dc9al_contacts dc9al_integers = Some gd77_contacts →
      integer_ids_positive_unique gd77_contacts.
Proof.
  assert (Hint : integer_radio_ids dc9al_integers).
  { unfold integer_radio_ids, dc9al_integers.
    repeat (apply Forall_cons; split; [by eexists|]). by apply Forall_nil. }
  split_and!; [exact Hint|done|by vm_compute|..];
    apply (dc9al_ids_positive_unique dc9al_integers Hint).
Defined.

(** The identifier of an identifier is itself, and an integer and its
    decimal text have the same identifier. *)
Lemma str_str (x : pyval) : str (PyStr (str x)) = str x.
Proof. reflexivity. Qed.

Example str_seven : str (PyInt 7) = str (PyStr "7").
Proof. reflexivity. Qed.

(** The scenarios of the specification for the two contact dialects. *)
Example tyt_alice :
  _convert_tyt_contacts
    [ {| tyt_Contact_Name := PyStr "Alice"; Call_Type := PyInt 1;
         Call_ID := PyInt 100100 |} ]
  = [ {| Contact_Name := PyStr "Alice"; ID := PyInt 100100;
         ID_Type := PyStr "Group"; TS_Override := "None" |} ].
Proof. reflexivity. Qed.

Example dc9al_john :
  _convert_dc9al_contacts
    [ {| Callsign := PyStr "DL1ABC"; Name := PyStr "John";
         Radio_ID := IntegerID 2621234 |};
      {| Callsign := PyStr "DL3XYZ"; Name := PyNaN;
         Radio_ID := IntegerID 0 |} ]
  = Some [ {| Contact_Name := PyStr "DL1ABC John"; ID := PyInt 2621234;
              ID_Type := PyStr "Private"; TS_Override := "None" |} ].
Proof. by vm_compute. Qed.

(** A list whose three columns are numbers, one of them with a missing
    cell: the rows handed to the lambda are float64 and the callsign
    comes out with a decimal point. *)
Example dc9al_numeric_callsign :
  _convert_dc9al_contacts
    [ {| Callsign := PyInt 4711; Name := PyNaN;
         Radio_ID := IntegerID 2621234 |} ]
  = Some [ {| Contact_Name := PyStr "4711.0"; ID := PyInt 2621234;
              ID_Type := PyStr "Private"; TS_Override := "None" |} ].
Proof. by vm_compute. Qed.

(** C3, on the DC9AL list [dc9al_with_bad_row]: the row that stays gets
    the identifier [2621234.0]; once it is clicked the store holds that
    text, and the export stops on it, writing nothing. *)
Theorem dc9al_float_identifier :
(λ gd77_contacts : list contact, (λ c, str (ID c)) <$> gd77_contacts)
    <$> _convert_dc9al_contacts dc9al_with_bad_row
  = Some ["2621234.0"]
  ∧ elements (contact_selection dc9al_session) = ["2621234.0"]
  ∧ int "2621234.0" = None
  ∧ import_selected dc9al_session ∅ = (ImportFailed, dc9al_session, ∅).
Proof. split_and!; by vm_compute. Qed.

End MappingFacts.

(** ** The channel mapper *)

Module ChannelFacts.
Import Py Converter Spec Editor Samples ExportFacts.

Lemma digital_field_total mode v :
  (eq_int mode 2 → is_text v = false) → is_Some (digital_field mode v).
Proof.
  unfold digital_field. destruct (eq_int mode 2); [|eauto].
  intros Hv. destruct v; simpl; eauto. by specialize (Hv I).
Qed.

Lemma is_text_handed float_rows x : is_text (handed float_rows x) = is_text x.
Proof. by destruct float_rows, x. Qed.

Lemma eq_int_handed float_rows x n :
  eq_int (handed float_rows x) n = eq_int x n.
Proof. by destruct float_rows, x. Qed.

Lemma convert_channel_row_total float_rows number row :
  comparable row → is_Some (convert_channel_row float_rows number row).
Proof.
  intros Hrow. unfold convert_channel_row. cbv zeta.
  assert (is_Some (digital_field (handed float_rows (Channel_Mode row))
                     (handed float_rows (Color_Code row))))
    as [colour ->].
  { apply digital_field_total. rewrite eq_int_handed, is_text_handed.
    intros Hm. by destruct (Hrow Hm). }
  assert (is_Some (digital_field (handed float_rows (Channel_Mode row))
                     (handed float_rows (Repeater_Slot row))))
    as [slot ->].
  { apply digital_field_total. rewrite eq_int_handed, is_text_handed.
    intros Hm. by destruct (Hrow Hm). }
  simpl. eauto.
Qed.

Lemma convert_channels_rows float_rows numbers df :
  Forall comparable df →
  ∃ chs, mapM (λ p : Z * tyt_channel,
                 convert_channel_row float_rows p.1 p.2)
              (zip numbers df) = Some chs
         ∧ Forall2 (λ p ch, convert_channel_row float_rows p.1 p.2 = Some ch)
                   (zip numbers df) chs.
Proof.
  intros Hdf.
  assert (is_Some (mapM (λ p : Z * tyt_channel,
                           convert_channel_row float_rows p.1 p.2)
                        (zip numbers df))) as [chs Hchs].
  { apply mapM_is_Some, Forall_forall. intros [n row] Hin.
    apply convert_channel_row_total. rewrite Forall_forall in Hdf.
    apply Hdf. by apply elem_of_zip_r in Hin. }
  exists chs. split; [done|]. by apply mapM_Some.
Qed.

(** The fields of one converted row that depend on its mode: the colour
    code and the slot of a digital row are written as the row handed to
    the lambda holds them, with a decimal point when it is a float64
    row. *)
Lemma convert_channel_row_fields float_rows number row ch :
  convert_channel_row float_rows number row = Some ch →
  (Channel_Mode row = PyInt 2 → Color_Code row = PyInt 3 →
   Repeater_Slot row = PyInt 1 →
   Colour_Code ch = (if float_rows then "3.0" else "3")
   ∧ Timeslot ch = (if float_rows then "1.0" else "1")
   ∧ Bandwidth_kHz ch = EmptyString)
  ∧ (Channel_Mode row = PyInt 1 →
     Bandwidth_kHz ch = "25" ∧ Colour_Code ch = EmptyString
     ∧ Timeslot ch = EmptyString).
Proof.
  unfold convert_channel_row. cbv zeta. intros Hch. split.
  - intros Hm Hc Hs. rewrite Hm, Hc, Hs in Hch.
    destruct float_rows; simpl in Hch; by injection Hch as <-.
  - intros Hm. rewrite Hm in Hch.
    destruct float_rows; simpl in Hch; by injection Hch as <-.
Qed.

(** On a table whose digital rows hold no text in Color Code and
    Repeater Slot, the channel mapper returns a table, numbered 1, 2, 3,
    ... in input order with nothing read from the input for it; an
    analogue row (mode 1) gets bandwidth 25 and neither colour code nor
    timeslot; a digital row (mode 2) whose cells hold the integers 3 and
    1 gets no bandwidth, and colour code 3 and timeslot 1 written as the
    row handed to the lambda holds them. *)
Lemma channel_table_by_rows (df : list tyt_channel) :
  Forall comparable df →
  ∃ chs,
    convert_channels df = Some chs
    ∧ Channel_Number <$> chs = Z.of_nat <$> seq 1 (length df)
    ∧ ∀ i row, df !! i = Some row →
        ∃ ch, chs !! i = Some ch
          ∧ Channel_Number ch = Z.of_nat (S i)
          ∧ Channel_Name ch = tyt_Channel_Name row
          ∧ (Channel_Mode row = PyInt 2 → Color_Code row = PyInt 3 →
             Repeater_Slot row = PyInt 1 →
             Colour_Code ch = (if channel_float_rows df then "3.0" else "3")
             ∧ Timeslot ch = (if channel_float_rows df then "1.0" else "1")
             ∧ Bandwidth_kHz ch = EmptyString)
          ∧ (Channel_Mode row = PyInt 1 →
             Bandwidth_kHz ch = "25" ∧ Colour_Code ch = EmptyString
             ∧ Timeslot ch = EmptyString).
Proof.
  intros Hdf.
  destruct (convert_channels_rows (channel_float_rows df)
              (channel_numbers (length df)) df Hdf)
    as (chs & Hchs & Hrows).
  exists chs. split; [done|]. split; [by apply convert_channels_numbers|].
  intros i row Hrow.
  assert (zip (channel_numbers (length df)) df !! i
          = Some (Z.of_nat (S i), row)) as Hzip.
  { apply lookup_zip_with_Some. eexists _, _. split_and!; [done| |done].
    unfold channel_numbers. rewrite list_lookup_fmap.
    by rewrite lookup_seq_lt by by eapply lookup_lt_Some. }
  destruct (Forall2_lookup_l _ _ _ _ _ Hrows Hzip) as (ch & Hch & Hconv).
  simpl in Hconv. exists ch. split; [done|].
  split; [by eapply convert_channel_row_number|].
  split; [|by eapply convert_channel_row_fields].
  unfold convert_channel_row in Hconv. cbv zeta in Hconv.
  destruct (digital_field _ (handed _ (Color_Code row))); [|done].
  destruct (digital_field _ (handed _ (Repeater_Slot row))); [|done].
  simpl in Hconv. by injection Hconv as <-.
Qed.

(** C7 on a channel list in which the Color Code cell of one row is
    empty: pandas holds that column as float64, and the digital row with
    colour code 3 on slot 1 gets the colour code 3.0, with a decimal
    point, where the claim has 3.  Numbers, types, bandwidths and the
    timeslot are as the claim has them. *)
Theorem colour_code_of_a_float_column :
  (λ gd77_channels : list channel,
     (λ c, (Channel_Number c, Channel_Type c, Bandwidth_kHz c,
            Colour_Code c, Timeslot c)) <$> gd77_channels)
    <$> convert_channels blank_colour_channels
  = Some [(1, PyStr "Digital", EmptyString, "3.0", "1");
          (2, PyStr "Analogue", "25", EmptyString, EmptyString)]
  ∧ channel_float_rows blank_colour_channels = false.
Proof. split; by vm_compute. Qed.

(** The scenario of the specification, on a list with integers in every
    Color Code and Repeater Slot cell and text for the names. *)
Example two_channels_converted :
  (λ c, (Channel_Number c, Channel_Type c, Bandwidth_kHz c, Colour_Code c,
         Timeslot c)) <$> default [] (convert_channels two_channels)
  = [(1, PyStr "Digital", EmptyString, "3", "1");
     (2, PyStr "Analogue", "25", EmptyString, EmptyString)].
Proof. by vm_compute. Qed.

(** The same two channels under numbers for names and with no tone
    column of text: every column is numeric, the rows handed to the
    lambdas are float64, and both the colour code and the timeslot come
    out with a decimal point. *)
Example numeric_channels_converted :
  (λ c, (Channel_Number c, Channel_Type c, Bandwidth_kHz c, Colour_Code c,
         Timeslot c)) <$> default [] (convert_channels numeric_channels)
  = [(1, PyStr "Digital", EmptyString, "3.0", "1.0");
     (2, PyStr "Analogue", "25", EmptyString, EmptyString)].
Proof. by vm_compute. Qed.

End ChannelFacts.

(** ** Nothing selected *)

Module NothingSelectedFacts.
Import Py Converter Spec Editor Samples.

(** C5: with both stores empty the export stops with [NothingSelected]:
    the editor, its stores and its tables are as they were, and so is the
    output folder, with no file written or replaced. *)
Theorem import_nothing_selected (e : editor) (fs : files) :
  contact_selection e = ∅ →
  channel_selection e = ∅ →
  import_selected e fs = (NothingSelected, e, fs).
Proof.
  intros Hc Hch. unfold import_selected.
  by rewrite !bool_decide_eq_true_2.
Qed.

(** A fresh editor on [net_contacts], with an older [Contacts.csv] in the
    folder: the file stays. *)
Lemma import_nothing_selected_witness :
  import_selected (Editor.init (Some net_contacts) None) old_files
  = (NothingSelected, Editor.init (Some net_contacts) None, old_files)
  ∧ old_files !! "Contacts.csv" = Some (ContactsTable shuffled_contacts).
Proof.
  split; [|done].
  exact (import_nothing_selected (Editor.init (Some net_contacts) None)
           old_files eq_refl eq_refl).
Defined.

End NothingSelectedFacts.

(** * Further properties *)

(** ** What an export writes *)

Module ExportMore.
Import Py Converter Spec Editor Samples MoreSamples PyFacts DuplicateFacts
  ExportFacts.

Lemma export_rows_inv {A} (key : A → pyval) selected original rows :
  export_rows key selected original = Some (Some rows) →
  ∃ ids df,
    selected_ids_int selected = Some ids ∧ original = Some df
    ∧ rows = keep_first key (filter (λ r, isin ids (key r)) df).
Proof.
  unfold export_rows. case_bool_decide; [done|].
  destruct (selected_ids_int selected) as [ids|]; [|done].
  destruct original as [df|]; [|done]. simpl. intros [= <-].
  exists ids, df. by rewrite drop_duplicates_keep_first.
Qed.

Lemma isin_number ids x :
  isin ids x → ∃ z, number_of x = Some z ∧ z ∈ ids.
Proof.
  destruct x as [z|z| |]; simpl; try done;
    intros ?%bool_decide_unpack; eauto.
Qed.

(** The rows kept for one kind of record: rows of the original table,
    each with the integer reading of a selected identifier as its key,
    no two with the same key. *)
Lemma export_rows_sound {A} (key : A → pyval) selected original rows :
  export_rows key selected original = Some (Some rows) →
  NoDup ((λ r, number_of (key r)) <$> rows)
  ∧ ∀ r, r ∈ rows →
      r ∈ default [] original
      ∧ ∃ s z, s ∈ selected ∧ int s = Some z ∧ number_of (key r) = Some z.
Proof.
  intros (ids & df & Hids & -> & ->)%export_rows_inv.
  assert (Hin : ∀ r, r ∈ filter (λ r, isin ids (key r)) df →
            ∃ z, number_of (key r) = Some z ∧ z ∈ ids).
  { intros r [Hr _]%list_elem_of_filter. by apply isin_number. }
  split.
  - apply keep_first_NoDup. intros r Hr.
    destruct (Hin r Hr) as (z & -> & _). eauto.
  - intros r Hr.
    apply (sublist_subseteq _ _ (keep_first_sublist _ _)) in Hr.
    split; [by apply list_elem_of_filter in Hr as [_ ?]|].
    destruct (Hin r Hr) as (z & Hz & Hzin).
    apply (proj2 (selected_ids_int_spec _ _ Hids)) in Hzin as (s & ? & ?).
    eauto.
Qed.

(** X2: Whatever table is loaded, also one with repeated IDs, no two contact
    rows of an export hold the same ID, and no two channel rows the same
    Channel Number. *)
Theorem exported_keys_are_distinct (e : editor) (fs : files) :
  NoDup ((λ c, number_of (ID c))
           <$> exported_contacts (import_selected e fs).1.1)
  ∧ NoDup (Channel_Number <$> exported_channels (import_selected e fs).1.1).
Proof.
  destruct ((import_selected e fs).1.1) as [| |contacts channels] eqn:Hout;
    simpl; try (split; constructor).
  apply import_selected_exported in Hout as [Hc Hch]. split.
  - destruct contacts as [rows|]; [|constructor].
    by apply export_rows_sound in Hc as [? _].
  - destruct channels as [rows|]; [|constructor].
    apply export_rows_sound in Hch as [Hnd _].
    apply (NoDup_fmap_1 Some). by rewrite <-list_fmap_compose.
Qed.

(** X3: An export writes selected rows of the original tables only: each
    contact row it writes is a row of the original contact table, and its
    ID is what [int] reads in one of the selected identifiers. *)
Theorem exported_contacts_are_selected (e : editor) (fs : files) (c : contact) :
  c ∈ exported_contacts (import_selected e fs).1.1 →
  c ∈ default [] (original_contacts_df e)
  ∧ ∃ s z, s ∈ contact_selection e ∧ int s = Some z
           ∧ number_of (ID c) = Some z.
Proof.
  destruct ((import_selected e fs).1.1) as [| |[rows|] channels] eqn:Hout;
    simpl; try by intros ?%elem_of_nil.
  apply import_selected_exported in Hout as [Hc _].
  apply export_rows_sound in Hc as [_ Hrows]. apply Hrows.
Qed.

Lemma exported_contacts_are_selected_witness :
  mk_contact "Eve" 5 "Private"
    ∈ exported_contacts (import_selected hidden_session ∅).1.1
  ∧ mk_contact "Eve" 5 "Private"
      ∈ default [] (original_contacts_df hidden_session)
  ∧ ∃ s z, s ∈ contact_selection hidden_session ∧ int s = Some z
           ∧ number_of (ID (mk_contact "Eve" 5 "Private")) = Some z.
Proof.
  assert (Hin : mk_contact "Eve" 5 "Private"
            ∈ exported_contacts (import_selected hidden_session ∅).1.1).
  { vm_compute. by left. }
  split; [exact Hin|].
  exact (exported_contacts_are_selected hidden_session ∅ _ Hin).
Defined.

Lemma selected_ids_int_unreadable selected s :
  s ∈ selected → int s = None → selected_ids_int selected = None.
Proof.
  intros Hs Hint. unfold selected_ids_int.
  destruct (mapM int (elements selected)) as [ints|] eqn:Hints; [|done].
  assert (is_Some (mapM int (elements selected))) as Hsome by eauto.
  apply mapM_is_Some in Hsome. rewrite Forall_forall in Hsome.
  destruct (Hsome s) as [z Hz]; [by apply elem_of_elements|].
  simpl in Hz. congruence.
Qed.

Lemma export_rows_unreadable {A} (key : A → pyval) selected original s :
  s ∈ selected → int s = None → export_rows key selected original = None.
Proof.
  intros Hs Hint. unfold export_rows.
  rewrite bool_decide_eq_false_2 by set_solver.
  by rewrite (selected_ids_int_unreadable _ _ Hs Hint).
Qed.

Lemma import_fails_on_unreadable (e : editor) (fs : files) (s : string) :
  s ∈ contact_selection e → int s = None →
  import_selected e fs = (ImportFailed, e, fs).
Proof.
  intros Hs Hint. unfold import_selected.
  rewrite (bool_decide_eq_false_2 (contact_selection e = ∅)) by set_solver.
  by rewrite (export_rows_unreadable ID _ _ _ Hs Hint).
Qed.

(** X4: One identifier that [int] cannot read, in either store, stops the
    whole export: nothing is exported for either kind, the editor stays
    open and unchanged, and no file is written. *)
Theorem unreadable_identifier_stops_export
    (e : editor) (fs : files) (s : string) :
  s ∈ contact_selection e ∨ s ∈ channel_selection e →
  int s = None →
  import_selected e fs = (ImportFailed, e, fs).
Proof.
  intros Hs Hint. unfold import_selected.
  rewrite (proj2 (andb_false_iff _ _)).
  2:{ destruct Hs as [Hs|Hs]; [left|right];
        apply bool_decide_eq_false_2; set_solver. }
  destruct Hs as [Hs|Hs].
  - by rewrite (export_rows_unreadable ID _ _ _ Hs Hint).
  - rewrite (export_rows_unreadable (λ c, PyInt (Channel_Number c)) _ _ _
               Hs Hint).
    by destruct (export_rows ID _ _).
Qed.

Lemma unreadable_identifier_stops_export_witness :
  "5" ∈ contact_selection unreadable_session
  ∧ import_selected unreadable_session old_files
    = (ImportFailed, unreadable_session, old_files).
Proof.
  split; [by vm_compute|].
  apply (unreadable_identifier_stops_export unreadable_session old_files
           "five").
  - left. by vm_compute.
  - reflexivity.
Defined.

(** X5: An export touches [Contacts.csv] and [Channels.csv] and no other
    file, and it leaves alone the file of a kind of which nothing is
    selected. *)
Theorem export_writes_selected_kinds_only (e : editor) (fs : files) :
  (∀ path, path ≠ "Contacts.csv" → path ≠ "Channels.csv" →
     (import_selected e fs).2 !! path = fs !! path)
  ∧ (contact_selection e = ∅ →
     (import_selected e fs).2 !! "Contacts.csv" = fs !! "Contacts.csv")
  ∧ (channel_selection e = ∅ →
     (import_selected e fs).2 !! "Channels.csv" = fs !! "Channels.csv").
Proof.
  unfold import_selected. destruct (_ && _) eqn:Hboth; [done|].
  destruct (export_rows ID _ _) as [contacts|] eqn:Hc; [|done].
  destruct (export_rows _ (channel_selection e) _) as [channels|] eqn:Hch;
    [|done].
  cbn [snd]. unfold continue_conversion_with_selection, save_csv.
  split_and!.
  - intros path Hp1 Hp2.
    destruct contacts, channels; by rewrite ?lookup_insert_ne.
  - intros Hempty. unfold export_rows in Hc.
    rewrite bool_decide_eq_true_2 in Hc by done. injection Hc as <-.
    destruct channels; by rewrite ?lookup_insert_ne.
  - intros Hempty. unfold export_rows in Hch.
    rewrite bool_decide_eq_true_2 in Hch by done. injection Hch as <-.
    destruct contacts; by rewrite ?lookup_insert_ne.
Qed.

End ExportMore.

(** ** Channels: conversion failure, select all, export *)

Module ChannelMore.
Import Py Converter Spec Editor Samples MoreSamples PyFacts DuplicateFacts
  ExportFacts ChannelFacts.

Lemma comparable_or_not row : comparable row ∨ text_in_digital_row row.
Proof.
  unfold comparable, text_in_digital_row.
  destruct (eq_int (Channel_Mode row) 2); [|by left].
  destruct (is_text (Color_Code row)); [right; naive_solver|].
  destruct (is_text (Repeater_Slot row)); [right; naive_solver|].
  by left.
Qed.

Lemma convert_channel_row_text float_rows number row :
  text_in_digital_row row →
  convert_channel_row float_rows number row = None.
Proof.
  intros [Hmode Htext]. unfold convert_channel_row, digital_field. cbv zeta.
  rewrite eq_int_handed.
  destruct (eq_int (Channel_Mode row) 2); [|done].
  destruct (Color_Code row) as [z|z| |s] eqn:Hc;
    destruct (Repeater_Slot row) as [z'|z'| |s'] eqn:Hs;
    destruct float_rows; simpl; try done; naive_solver.
Qed.

Lemma all_comparable_or_text df :
  Forall comparable df ∨ Exists text_in_digital_row df.
Proof.
  induction df as [|row df [IH|IH]]; [by left| |by right; right].
  destruct (comparable_or_not row); [left|right]; by constructor.
Qed.

(** X6: [convert_channels] gives no table exactly when some digital row holds
    text in Color Code or Repeater Slot: the comparison with 0 raises on
    it and the whole conversion is given up, good rows included.  Text in
    those cells of an analogue row does no harm, since the comparison is
    not reached. *)
Theorem convert_channels_fails_iff (df : list tyt_channel) :
  convert_channels df = None ↔ Exists text_in_digital_row df.
Proof.
  split.
  - intros Hnone. destruct (all_comparable_or_text df) as [Hall|Hex]; [|done].
    destruct (convert_channels_rows (channel_float_rows df)
                (channel_numbers (length df)) df Hall) as (chs & Hchs & _).
    unfold convert_channels in Hnone. congruence.
  - intros (row & Hrow & Hbad)%Exists_exists.
    apply list_elem_of_lookup in Hrow as [i Hi].
    destruct (convert_channels df) as [chs|] eqn:Hchs; [|done].
    unfold convert_channels in Hchs.
    assert (is_Some (mapM (λ p : Z * tyt_channel,
                             convert_channel_row (channel_float_rows df)
                               p.1 p.2)
                       (zip (channel_numbers (length df)) df))) as Hsome
      by eauto.
    apply mapM_is_Some in Hsome. rewrite Forall_forall in Hsome.
    destruct (Hsome (Z.of_nat (S i), row)) as [ch Hch].
    + apply list_elem_of_lookup. exists i.
      apply lookup_zip_with_Some. eexists _, _. split_and!; [done| |done].
      unfold channel_numbers. rewrite list_lookup_fmap.
      by rewrite lookup_seq_lt by by eapply lookup_lt_Some.
    + simpl in Hch. by rewrite convert_channel_row_text in Hch.
Qed.

Example text_colour_channels_fail :
  convert_channels text_colour_channels = None.
Proof. reflexivity. Qed.

Lemma foldl_add_ids (ids : list string) (s : gset string) :
  foldl (λ s id, s ∪ {[id]}) s ids = s ∪ list_to_set ids.
Proof.
  revert s. induction ids as [|x ids IH]; intros s; simpl.
  - by rewrite (right_id_L ∅ (∪)).
  - rewrite IH. set_solver.
Qed.

Lemma filter_all {A} (P : A → Prop) `{∀ x, Decision (P x)} (l : list A) :
  Forall P l → filter P l = l.
Proof.
  induction 1 as [|x l Hx _ IH]; [done|].
  by rewrite filter_cons_True, IH.
Qed.

(** Rows in strictly ascending order of key are all first of their key. *)
Lemma keep_first_ascending {A} (number : A → Z) (rows : list A) :
  StronglySorted Z.lt (number <$> rows) →
  keep_first (λ r, PyInt (number r)) rows = rows.
Proof.
  induction rows as [|x rows IH]; [done|].
  rewrite fmap_cons. intros [Hs Hx]%StronglySorted_inv.
  cbn [keep_first]. rewrite (IH Hs). f_equal.
  apply filter_all, Forall_forall. intros y Hy.
  simpl. intros ?%bool_decide_unpack.
  rewrite Forall_forall in Hx.
  assert (number x < number y); [|lia].
  apply Hx, list_elem_of_fmap. eauto.
Qed.

(** X7: Select All Visible on the fresh channels tab, then Import Selected:
    the whole converted channel table is written to [Channels.csv], as it
    was converted and with no limit on its size; nothing is written for
    contacts. *)
Theorem select_all_channels_exports_table
    (tyt : list tyt_channel) (chs : list channel)
    (contacts : option (list contact)) (fs : files) :
  convert_channels tyt = Some chs →
  tyt ≠ [] →
  let e := select_all_channels (Editor.init contacts (Some chs)) in
  import_selected e fs
  = (Imported None (Some chs), destroy e,
     <["Channels.csv" := ChannelsTable chs]> fs).
Proof.
  intros Hchs Hne e.
  pose proof (convert_channels_numbers _ _ Hchs) as Hnum.
  assert (Hsel : channel_selection e
            = list_to_set ((λ c, str (PyInt (Channel_Number c))) <$> chs)).
  { unfold e, select_all_channels. cbn. rewrite foldl_add_ids.
    unfold SelectionManager.init. by rewrite (left_id_L ∅ (∪)). }
  assert (Hcan : canonical (channel_selection e)).
  { rewrite Hsel. intros s Hs. apply elem_of_list_to_set in Hs.
    apply list_elem_of_fmap in Hs as (c & -> & _). eauto. }
  assert (Hsome : channel_selection e ≠ ∅).
  { rewrite Hsel. destruct chs as [|c chs].
    - destruct tyt; [done|]. simpl in Hnum. discriminate.
    - rewrite fmap_cons. set_solver. }
  unfold import_selected.
  rewrite (bool_decide_eq_false_2 _ Hsome), andb_false_r.
  unfold export_rows at 1. rewrite bool_decide_eq_true_2 by done.
  change (original_channels_df e) with (Some chs).
  rewrite (export_rows_canonical (λ c, PyInt (Channel_Number c)) _ chs Hcan)
    by eauto.
  rewrite filter_all.
  - rewrite keep_first_ascending; [done|].
    rewrite Hnum. apply channel_numbers_sorted.
  - apply Forall_forall. intros c Hc. rewrite Hsel.
    apply elem_of_list_to_set, list_elem_of_fmap. eauto.
Qed.

Lemma select_all_channels_exports_table_witness :
  two_channels ≠ []
  ∧ ∃ chs,
      convert_channels two_channels = Some chs
      ∧ import_selected (select_all_channels (Editor.init None (Some chs)))
          old_files
        = (Imported None (Some chs),
           destroy (select_all_channels (Editor.init None (Some chs))),
           <["Channels.csv" := ChannelsTable chs]> old_files).
Proof.
  split; [done|].
  destruct (convert_channels two_channels) as [chs|] eqn:Hchs; [|done].
  exists chs. split; [done|].
  exact (select_all_channels_exports_table two_channels chs None old_files
           Hchs ltac:(done)).
Defined.





End ChannelMore.

(** ** Filtering *)

Module FilterMore.
Import Py Converter Spec Editor Samples MoreSamples SelectionFacts.

Lemma name_matches_spec found_in name :
  name_matches found_in name ↔ ∃ s, name = PyStr s ∧ found_in (lower s).
Proof. destruct name; simpl; naive_solver. Qed.

(** The two ways [filter_contacts] ends on an editor with a contacts
    tab: given up on an exception, with the editor as it was, or with a
    new view, cut from the original table. *)
Lemma filter_contacts_view
    (contains : matcher) (e : editor) (original : list contact) :
  original_contacts_df e = Some original →
  let search_text := lower (contacts_search_var e) in
  let filter_type := contacts_filter_var e in
  (search_raises contains search_text (Contact_Name <$> original)
   ∧ filter_contacts contains e = e)
  ∨ (¬ search_raises contains search_text (Contact_Name <$> original)
     ∧ ∃ view,
         filter_contacts contains e = set_contacts_df (Some view) e
         ∧ sublist view original
         ∧ ∀ c, c ∈ view
                ↔ c ∈ original ∧ shown contains search_text filter_type c).
Proof.
  intros Horig search_text filter_type. unfold filter_contacts.
  rewrite Horig. cbv zeta. fold search_text. fold filter_type.
  unfold search_raises, shown.
  destruct (decide (search_text = EmptyString)) as [Hempty|Hsearch].
  { rewrite (bool_decide_eq_true_2 _ Hempty). right.
    split; [naive_solver|]. eexists. split; [done|].
    case_bool_decide as Htype.
    - split; [done|]. naive_solver.
    - split; [apply sublist_filter|]. intros c.
      rewrite list_elem_of_filter. unfold type_is.
      rewrite bool_decide_spec. naive_solver. }
  rewrite (bool_decide_eq_false_2 _ Hsearch). unfold search_mask.
  destruct (text_column (Contact_Name <$> original)) eqn:Htext;
    [|left; naive_solver].
  destruct (contains search_text) as [found_in|] eqn:Hfound;
    [|left; naive_solver].
  right. split; [naive_solver|]. cbn [fmap option_fmap option_map mbind
    option_bind]. eexists. split; [done|].
  case_bool_decide as Htype.
  - split; [apply sublist_filter|]. intros c.
    rewrite list_elem_of_filter, name_matches_spec. naive_solver.
  - split; [etrans; apply sublist_filter|]. intros c.
    rewrite !list_elem_of_filter, name_matches_spec. unfold type_is.
    rewrite bool_decide_spec. naive_solver.
Qed.


(** X10: Clearing the search box and setting the type back to All shows the
    whole original table again, with the selection made meanwhile
    intact. *)
Theorem clearing_the_filter_restores_the_table
    (contains : matcher) (e : editor)
    (original : list contact) :
  original_contacts_df e = Some original →
  let e' :=
    filter_contacts contains (set_contacts_filter_vars EmptyString "All" e) in
  contacts_df e' = Some original
  ∧ contact_selection e' = contact_selection e.
Proof.
  intros Horig. unfold filter_contacts.
  cbn [original_contacts_df set_contacts_filter_vars contacts_search_var
       contacts_filter_var].
  by rewrite Horig.
Qed.

Lemma clearing_the_filter_restores_the_table_witness :
  contacts_df hidden_session = Some [mk_contact "Net" 91 "Group"]
  ∧ contacts_df
      (filter_contacts exact_match
         (set_contacts_filter_vars EmptyString "All" hidden_session))
    = Some net_contacts
  ∧ contact_selection
      (filter_contacts exact_match
         (set_contacts_filter_vars EmptyString "All" hidden_session))
    = contact_selection hidden_session.
Proof.
  split; [by vm_compute|].
  exact (clearing_the_filter_restores_the_table exact_match hidden_session
           net_contacts eq_refl).
Defined.

(** X11: The TYT mapper gives as many rows as it gets, each with its name
    and Call ID as they are; a row whose Call Type is neither 1 nor 2
    comes out with no ID Type.  In the editor opened on the table, a type
    filter other than All then hides that row, whatever the search text,
    unless the search is given up on an exception; in that case the view
    is left as it was, the whole table. *)
Theorem tyt_row_of_unknown_type_is_hidden
    (contains : matcher) (df : list tyt_contact)
    (channels : option (list channel)) (row : tyt_contact)
    (search type : string) :
  row ∈ df →
  eq_int (Call_Type row) 1 = false →
  eq_int (Call_Type row) 2 = false →
  type ≠ "All" →
  let converted := {| Contact_Name := tyt_Contact_Name row;
                      ID := Call_ID row; ID_Type := PyNaN;
                      TS_Override := "None" |} in
  let e := filter_contacts contains
             (set_contacts_filter_vars search type
                (Editor.init (Some (_convert_tyt_contacts df)) channels)) in
  let raises :=
    search_raises contains (lower search)
      (Contact_Name <$> _convert_tyt_contacts df) in
  length (_convert_tyt_contacts df) = length df
  ∧ converted ∈ _convert_tyt_contacts df
  ∧ (¬ raises → ∃ view, contacts_df e = Some view ∧ converted ∉ view)
  ∧ (raises → contacts_df e = Some (_convert_tyt_contacts df)).
Proof.
  intros Hrow H1 H2 Htype converted e raises. split_and!.
  - unfold _convert_tyt_contacts. by rewrite length_fmap.
  - unfold _convert_tyt_contacts. apply list_elem_of_fmap. exists row.
    split; [|done]. unfold converted, map_call_type. by rewrite H1, H2.
  - intros Hfine.
    destruct (filter_contacts_view contains
                (set_contacts_filter_vars search type
                   (Editor.init (Some (_convert_tyt_contacts df)) channels))
                _ eq_refl) as [[Hraises _]|(_ & view & He & _ & Hview)];
      [done|].
    fold e in He. exists view. split; [by rewrite He|].
    intros [_ [_ [?|?]]]%Hview; done.
  - intros Hraises.
    destruct (filter_contacts_view contains
                (set_contacts_filter_vars search type
                   (Editor.init (Some (_convert_tyt_contacts df)) channels))
                _ eq_refl) as [[_ He]|[Hfine _]]; [|done].
    fold e in He. by rewrite He.
Qed.

Lemma tyt_row_of_unknown_type_is_hidden_witness :
  ∃ row,
    tyt_odd_type !! 1%nat = Some row
    ∧ Call_Type row = PyInt 3
    ∧ ¬ search_raises exact_match (lower EmptyString)
          (Contact_Name <$> _convert_tyt_contacts tyt_odd_type)
    ∧ contacts_df
        (filter_contacts exact_match
           (set_contacts_filter_vars EmptyString "Private"
              (Editor.init (Some (_convert_tyt_contacts tyt_odd_type)) None)))
      = Some []
    ∧ length (_convert_tyt_contacts tyt_odd_type) = length tyt_odd_type
    ∧ {| Contact_Name := tyt_Contact_Name row; ID := Call_ID row;
         ID_Type := PyNaN; TS_Override := "None" |}
      ∈ _convert_tyt_contacts tyt_odd_type
    ∧ (¬ search_raises exact_match (lower EmptyString)
           (Contact_Name <$> _convert_tyt_contacts tyt_odd_type) →
       ∃ view,
         contacts_df
           (filter_contacts exact_match
              (set_contacts_filter_vars EmptyString "Private"
                 (Editor.init (Some (_convert_tyt_contacts tyt_odd_type))
                    None)))
         = Some view
         ∧ {| Contact_Name := tyt_Contact_Name row; ID := Call_ID row;
              ID_Type := PyNaN; TS_Override := "None" |} ∉ view)
    ∧ (search_raises exact_match (lower EmptyString)
         (Contact_Name <$> _convert_tyt_contacts tyt_odd_type) →
       contacts_df
         (filter_contacts exact_match
            (set_contacts_filter_vars EmptyString "Private"
               (Editor.init (Some (_convert_tyt_contacts tyt_odd_type))
                  None)))
       = Some (_convert_tyt_contacts tyt_odd_type)).
Proof.
  exists {| tyt_Contact_Name := PyStr "All call"; Call_Type := PyInt 3;
            Call_ID := PyInt 16777215 |}.
  split; [reflexivity|]. split; [reflexivity|].
  split; [by intros [? _]|]. split; [by vm_compute|].
  refine (tyt_row_of_unknown_type_is_hidden exact_match tyt_odd_type None
            {| tyt_Contact_Name := PyStr "All call"; Call_Type := PyInt 3;
               Call_ID := PyInt 16777215 |}
            EmptyString "Private" _ eq_refl eq_refl _).
  - apply list_elem_of_lookup. by exists 1%nat.
  - done.
Defined.

End FilterMore.

(** ** The contact limit, once more *)

Module LimitMore.
Import Py Converter Spec SelectionManager Editor Samples MoreSamples
  SelectionFacts LimitFacts.

Lemma add_visible_contacts_exact (ids : list string) (s : gset string) :
  (size s ≤ MAX_CONTACTS)%nat →
  ((size (s ∪ list_to_set ids) ≤ MAX_CONTACTS)%nat →
   add_visible_contacts ids s = s ∪ list_to_set ids)
  ∧ ((MAX_CONTACTS < size (s ∪ list_to_set ids))%nat →
     size (add_visible_contacts ids s) = MAX_CONTACTS).
Proof.
  revert s. induction ids as [|x ids IH]; intros s Hs.
  - cbn [add_visible_contacts list_to_set foldr].
    rewrite (right_id_L ∅ (∪)). split; [done|lia].
  - cbn [add_visible_contacts]. case_bool_decide as Hlt.
    + assert (s ∪ {[x]} ∪ list_to_set ids
              = s ∪ list_to_set (x :: ids)) as <- by set_solver.
      apply IH. pose proof (size_add s x). lia.
    + split; [|lia]. intros Hfit.
      assert (s ⊆ s ∪ list_to_set (x :: ids)) as Hsub
        by apply union_subseteq_l.
      assert (size (s ∪ list_to_set (x :: ids)) ≤ size s)%nat as Hle by lia.
      exact (set_subseteq_size_eq _ _ Hsub Hle).
Qed.

(** X12: Select All Visible, from a store within the limit: when the store
    and the visible contacts together fit under [MAX_CONTACTS], every
    visible contact is selected and what was selected stays; when they do
    not fit, the store ends up holding exactly [MAX_CONTACTS]
    identifiers. *)
Theorem select_all_visible_fills_up_to_the_limit
    (e : editor) (original view : list contact) :
  original_contacts_df e = Some original →
  contacts_df e = Some view →
  (size (contact_selection e) ≤ MAX_CONTACTS)%nat →
  let visible : gset string := list_to_set ((λ c, str (ID c)) <$> view) in
  let after := contact_selection (select_all_contacts e) in
  ((size (contact_selection e ∪ visible) ≤ MAX_CONTACTS)%nat →
   after = contact_selection e ∪ visible)
  ∧ ((MAX_CONTACTS < size (contact_selection e ∪ visible))%nat →
     size after = MAX_CONTACTS).
Proof.
  intros Horig Hview Hsize visible after.
  unfold after, select_all_contacts. rewrite Horig, Hview.
  cbn [contact_selection set_contact_selection].
  by apply add_visible_contacts_exact.
Qed.

Lemma select_all_visible_fills_up_to_the_limit_witness :
  (size (contact_selection (Editor.init (Some shuffled_contacts) None))
   ≤ MAX_CONTACTS)%nat
  ∧ ((size (contact_selection (Editor.init (Some shuffled_contacts) None)
            ∪ list_to_set ((λ c, str (ID c)) <$> shuffled_contacts))
      ≤ MAX_CONTACTS)%nat →
     contact_selection
       (select_all_contacts (Editor.init (Some shuffled_contacts) None))
     = contact_selection (Editor.init (Some shuffled_contacts) None)
       ∪ list_to_set ((λ c, str (ID c)) <$> shuffled_contacts)).
Proof.
  assert (Hsize : (size (contact_selection
                           (Editor.init (Some shuffled_contacts) None))
                   ≤ MAX_CONTACTS)%nat).
  { cbn [contact_selection Editor.init]. unfold SelectionManager.init.
    rewrite size_empty. lia. }
  split; [exact Hsize|].
  exact (proj1 (select_all_visible_fills_up_to_the_limit
                  (Editor.init (Some shuffled_contacts) None)
                  shuffled_contacts shuffled_contacts eq_refl eq_refl Hsize)).
Defined.

(** X13: The limit refuses a click, not the session: with the store full, a
    click on an unselected contact is refused; after one selected contact
    is clicked away the same click goes through, and the store is full
    again. *)
Theorem limit_is_per_click (a b : string) (e : editor) :
  size (contact_selection e) = MAX_CONTACTS →
  a ∈ contact_selection e →
  b ∉ contact_selection e →
  let e1 := (toggle_contact_selection a e).2 in
  toggle_contact_selection b e = (LimitReached, e)
  ∧ toggle_contact_selection b e1
    = (Toggled,
       set_contact_selection (contact_selection e ∖ {[a]} ∪ {[b]}) e1)
  ∧ size (contact_selection e ∖ {[a]} ∪ {[b]}) = MAX_CONTACTS.
Proof.
  intros Hfull Ha Hb e1.
  assert (Hless : S (size (contact_selection e ∖ {[a]})) = MAX_CONTACTS).
  { rewrite size_difference by set_solver. rewrite size_singleton, Hfull.
    unfold MAX_CONTACTS. lia. }
  split_and!.
  - unfold toggle_contact_selection, is_selected. cbn [str].
    rewrite (bool_decide_eq_false_2 _ Hb), bool_decide_eq_true_2 by lia.
    done.
  - unfold e1. rewrite (deselect_is_never_blocked_aux a e Ha). cbn [snd].
    unfold toggle_contact_selection, is_selected, toggle_selection.
    cbn [str contact_selection set_contact_selection].
    rewrite !(bool_decide_eq_false_2 (b ∈ contact_selection e ∖ {[a]}))
      by set_solver.
    rewrite bool_decide_eq_false_2 by lia. done.
  - rewrite size_union by set_solver. rewrite size_singleton. lia.
Qed.

Lemma limit_is_per_click_witness :
  size (contact_selection full_editor) = MAX_CONTACTS
  ∧ toggle_contact_selection (str (PyInt 2000)) full_editor
    = (LimitReached, full_editor)
  ∧ toggle_contact_selection (str (PyInt 2000))
      (toggle_contact_selection (str (PyInt 5)) full_editor).2
    = (Toggled,
       set_contact_selection
         (contact_selection full_editor ∖ {[str (PyInt 5)]}
          ∪ {[str (PyInt 2000)]})
         (toggle_contact_selection (str (PyInt 5)) full_editor).2).
Proof.
  pose proof (size_select_all_many_ids 1024) as Hfull.
  assert (Ha : str (PyInt 5) ∈ contact_selection full_editor).
  { exact (proj2 (elem_of_select_all_many_ids 1024 5) ltac:(lia)). }
  assert (Hb : str (PyInt 2000) ∉ contact_selection full_editor).
  { intros H. apply (elem_of_select_all_many_ids 1024 2000) in H. lia. }
  split; [exact Hfull|].
  pose proof (limit_is_per_click (str (PyInt 5)) (str (PyInt 2000))
                full_editor Hfull Ha Hb) as (H1 & H2 & _).
  split; [exact H1|exact H2].
Defined.

End LimitMore.

(** ** The selection store, once more *)

Module StoreMore.
Import Py Converter SelectionManager.

(** X14: [select_only] is [deselect_all] followed by [select_all]; what
    [select_all] has just added is found again whole by
    [get_selected_from_filtered], whatever the store held before; and
    [select_all] or a toggle of another identifier never unselects. *)
Theorem store_operations_compose
    (id_list : list pyval) (selected_ids : gset string) :
  select_only id_list selected_ids
  = select_all id_list (deselect_all selected_ids)
  ∧ get_selected_from_filtered id_list (select_all id_list selected_ids)
    = select_only id_list selected_ids
  ∧ (∀ id, is_selected id selected_ids →
       is_selected id (select_all id_list selected_ids))
  ∧ (∀ id other, str id ≠ str other →
       is_selected id (toggle_selection other selected_ids)
       = is_selected id selected_ids).
Proof.
  unfold select_only, select_all, deselect_all, get_selected_from_filtered,
    is_selected.
  split_and!.
  - by rewrite (left_id_L ∅ (∪)).
  - set_solver.
  - intros id Hid%bool_decide_unpack. apply bool_decide_pack. set_solver.
  - intros id other Hne. unfold toggle_selection.
    apply bool_decide_ext. case_bool_decide; set_solver.
Qed.

End StoreMore.

(** ** The labels *)

Module CountsMore.
Import Py Converter Spec Editor Samples MoreSamples Counts.

Lemma selected_text_cases (selected_ids filtered_ids : gset string) :
  match selected_text (tab_counts selected_ids filtered_ids) with
  | SelectedForImport n =>
      selected_ids ⊆ filtered_ids ∧ n = size selected_ids
  | SelectedInFilter in_filter total =>
      ¬ selected_ids ⊆ filtered_ids
      ∧ in_filter = size (selected_ids ∩ filtered_ids)
      ∧ total = size selected_ids
      ∧ (in_filter < total)%nat
  end.
Proof.
  unfold tab_counts. cbn [selected_text]. case_bool_decide as Hlt.
  - split_and!; try done. intros Hsub.
    assert (selected_ids ∩ filtered_ids = selected_ids) as Heq by set_solver.
    rewrite Heq in Hlt. lia.
  - assert (selected_ids ∩ filtered_ids ⊆ selected_ids) as Hsub
      by set_solver.
    assert (size selected_ids ≤ size (selected_ids ∩ filtered_ids))%nat
      as Hle by lia.
    pose proof (set_subseteq_size_eq _ _ Hsub Hle) as Heq.
    split; [set_solver|by rewrite Heq].
Qed.

(** X15: The contacts label reads [Selected: n for import] exactly when every
    selected contact is in the current view, and then n is the whole
    selection; otherwise it gives two numbers, the selected contacts in
    view and the strictly larger total.  The bottom line always counts
    the whole stores. *)
Theorem contacts_label_tells_hidden_selection
    (e : editor) (original : list contact) :
  original_contacts_df e = Some original →
  ∃ tl,
    contacts_labels (update_counts e) = Some tl
    ∧ selection_label (update_counts e)
      = (size (contact_selection e), size (channel_selection e))
    ∧ match selected_text tl with
      | SelectedForImport n =>
          contact_selection e ⊆ filtered_contact_ids e
          ∧ n = size (contact_selection e)
      | SelectedInFilter in_filter total =>
          ¬ contact_selection e ⊆ filtered_contact_ids e
          ∧ in_filter
            = size (contact_selection e ∩ filtered_contact_ids e)
          ∧ total = size (contact_selection e)
          ∧ (in_filter < total)%nat
      end.
Proof.
  intros Horig. unfold update_counts. rewrite Horig.
  eexists. split; [done|]. split; [done|]. apply selected_text_cases.
Qed.

Lemma contacts_label_tells_hidden_selection_witness :
  original_contacts_df hidden_session = Some net_contacts
  ∧ ∃ tl,
      contacts_labels (update_counts hidden_session) = Some tl
      ∧ selection_label (update_counts hidden_session)
        = (size (contact_selection hidden_session),
           size (channel_selection hidden_session))
      ∧ match selected_text tl with
        | SelectedForImport n =>
            contact_selection hidden_session
              ⊆ filtered_contact_ids hidden_session
            ∧ n = size (contact_selection hidden_session)
        | SelectedInFilter in_filter total =>
            ¬ contact_selection hidden_session
                ⊆ filtered_contact_ids hidden_session
            ∧ in_filter
              = size (contact_selection hidden_session
                      ∩ filtered_contact_ids hidden_session)
            ∧ total = size (contact_selection hidden_session)
            ∧ (in_filter < total)%nat
        end.
Proof.
  split; [reflexivity|].
  exact (contacts_label_tells_hidden_selection hidden_session net_contacts
           eq_refl).
Defined.

Example hidden_session_label :
  selected_text <$> contacts_labels (update_counts hidden_session)
  = Some (SelectedInFilter 0 1).
Proof. by vm_compute. Qed.



End CountsMore.

(** ** Reading a file *)

Module ReaderMore.
Import Py Converter Samples MoreSamples Reader.

Section reader.
Context {A : Type} (read_csv : string → read_result A).

Lemma try_encodings_Some (encodings : list string) (df : A) :
  (try_encodings read_csv encodings).1 = Some df
  ↔ ∃ tried encoding rest,
      encodings = tried ++ encoding :: rest
      ∧ Forall (λ enc, read_csv enc = UnicodeDecodeError) tried
      ∧ read_csv encoding = Loaded df.
Proof.
  induction encodings as [|enc encodings IH]; simpl.
  - split; [done|]. by intros ([|??] & ? & ? & ? & _).
  - destruct (read_csv enc) as [df'| |message] eqn:Henc; simpl.
    + split.
      * intros [= ->]. by exists [], enc, encodings.
      * intros ([|enc' tried] & encoding & rest & Heq & Htried & Hread);
          simplify_eq/=; [congruence|].
        apply Forall_cons in Htried as [? _]. congruence.
    + rewrite IH. split.
      * intros (tried & encoding & rest & -> & Htried & Hread).
        exists (enc :: tried), encoding, rest. split; [done|].
        split; [by constructor|done].
      * intros ([|enc' tried] & encoding & rest & Heq & Htried & Hread);
          simplify_eq/=; [congruence|].
        apply Forall_cons in Htried as [_ ?]. eauto 6.
    + split; [done|].
      intros ([|enc' tried] & encoding & rest & Heq & Htried & Hread);
        simplify_eq/=; [congruence|].
      apply Forall_cons in Htried as [? _]. congruence.
Qed.

Lemma try_encodings_other (tried rest : list string)
    (encoding message : string) :
  Forall (λ enc, read_csv enc = UnicodeDecodeError) tried →
  read_csv encoding = OtherException message →
  try_encodings read_csv (tried ++ encoding :: rest)
  = (None, ["File error: " +:+ message;
            "Failed to read file with supported encodings"]).
Proof.
  intros Htried Hread. induction Htried as [|enc tried Henc _ IH]; simpl.
  - by rewrite Hread.
  - by rewrite Henc.
Qed.

(** X17: The file is read with the first of the four encodings that does not
    raise a decoding error, if that one reads it.  Any other error stops
    the search on the spot: the encodings after it are not tried, also
    when one of them would read the file, and the result is no table,
    with the error and the failure in the log. *)
Theorem first_encoding_that_decodes_decides :
  (∀ df, (_read_csv_with_log read_csv).1 = Some df
     ↔ ∃ tried encoding rest,
         encodings_to_try = tried ++ encoding :: rest
         ∧ Forall (λ enc, read_csv enc = UnicodeDecodeError) tried
         ∧ read_csv encoding = Loaded df)
  ∧ (∀ tried encoding rest message,
       encodings_to_try = tried ++ encoding :: rest →
       Forall (λ enc, read_csv enc = UnicodeDecodeError) tried →
       read_csv encoding = OtherException message →
       _read_csv_with_log read_csv
       = (None, ["File error: " +:+ message;
                 "Failed to read file with supported encodings"]))
  ∧ (Forall (λ enc, read_csv enc = UnicodeDecodeError) encodings_to_try →
     _read_csv_with_log read_csv
     = (None, ["Failed to read file with supported encodings"])).
Proof.
  unfold _read_csv_with_log. split_and!.
  - intros df. apply try_encodings_Some.
  - intros tried encoding rest message -> Htried Hread.
    by apply try_encodings_other.
  - generalize encodings_to_try.
    induction 1 as [|enc encodings Henc _ IH]; simpl; [done|].
    by rewrite Henc.
Qed.

End reader.

Example cp1252_file_read :
  _read_csv_with_log cp1252_file
  = (Some tyt_unchecked, ["File loaded with cp1252 encoding"]).
Proof. reflexivity. Qed.

Example missing_file_read :
  _read_csv_with_log missing_file
  = (None, ["File error: No such file or directory";
            "Failed to read file with supported encodings"]).
Proof. reflexivity. Qed.

End ReaderMore.

(** ** From clicks to the exported file *)

Module SessionMore.
Import Py Converter Spec SelectionManager Editor Samples MoreSamples PyFacts
  SelectionFacts DuplicateFacts ExportFacts FilterMore.

(** What every step of a session keeps, on a contact table of integer
    IDs: the original tables, the empty channel store, a contact store of
    canonical identifiers, a view cut from the original table. *)
Lemma step_keeps_session
    (contains : matcher) (contacts : list contact)
    (channels : option (list channel)) (e : editor) (a : action) :
  (∀ c, c ∈ contacts → ∃ z, ID c = PyInt z) →
  click_on_integer_id a →
  (original_contacts_df e = Some contacts
   ∧ original_channels_df e = channels
   ∧ channel_selection e = ∅
   ∧ canonical (contact_selection e)
   ∧ ∃ view, contacts_df e = Some view ∧ view ⊆ contacts) →
  original_contacts_df (step contains e a) = Some contacts
  ∧ original_channels_df (step contains e a) = channels
  ∧ channel_selection (step contains e a) = ∅
  ∧ canonical (contact_selection (step contains e a))
  ∧ ∃ view, contacts_df (step contains e a) = Some view ∧ view ⊆ contacts.
Proof.
  intros Hint Ha (Horig & Hch & Hsel & Hcan & view & Hview & Hsub).
  destruct a as [id| | |search type]; cbn [step].
  - unfold toggle_contact_selection. destruct (_ && _); cbn [snd];
      [by eauto 10|].
    split_and!; try done; [|by eauto].
    cbn [contact_selection set_contact_selection]. unfold toggle_selection.
    destruct Ha as [z ->]. intros s. case_bool_decide.
    + intros [Hs _]%elem_of_difference. by apply Hcan.
    + intros [Hs| ->%elem_of_singleton]%elem_of_union; [by apply Hcan|].
      by exists z.
  - unfold select_all_contacts. rewrite Horig, Hview.
    split_and!; try done; [|by eauto].
    cbn [contact_selection set_contact_selection default from_option id].
    intros s Hs.
    apply (proj1 (proj2 (add_visible_contacts_bounds _ _))) in Hs.
    apply elem_of_union in Hs as [Hs|Hs]; [by apply Hcan|].
    apply elem_of_list_to_set, list_elem_of_fmap in Hs as (c & -> & Hc).
    destruct (Hint c) as [z ->]; [by apply Hsub|]. by exists z.
  - unfold deselect_all_contacts. rewrite Horig.
    split_and!; try done; try (by eauto).
    all: cbn [contact_selection set_contact_selection]; unfold deselect_all;
      intros s Hs; by apply elem_of_empty in Hs.
  - destruct (filter_contacts_view contains
                (set_contacts_filter_vars search type e) contacts Horig)
      as [[_ ->]|(_ & view' & -> & Hsub' & _)].
    + split_and!; try done. by exists view.
    + split_and!; try done. exists view'. split; [done|].
      by apply sublist_subseteq.
Qed.

Lemma run_keeps_session
    (contains : matcher) (contacts : list contact)
    (channels : option (list channel)) (actions : list action) (e : editor) :
  (∀ c, c ∈ contacts → ∃ z, ID c = PyInt z) →
  Forall click_on_integer_id actions →
  (original_contacts_df e = Some contacts
   ∧ original_channels_df e = channels
   ∧ channel_selection e = ∅
   ∧ canonical (contact_selection e)
   ∧ ∃ view, contacts_df e = Some view ∧ view ⊆ contacts) →
  original_contacts_df (run contains actions e) = Some contacts
  ∧ original_channels_df (run contains actions e) = channels
  ∧ channel_selection (run contains actions e) = ∅
  ∧ canonical (contact_selection (run contains actions e))
  ∧ ∃ view, contacts_df (run contains actions e) = Some view
            ∧ view ⊆ contacts.
Proof.
  intros Hint Hacts. revert e.
  induction Hacts as [|a actions Ha _ IH]; intros e He; [done|].
  unfold run. cbn [foldl]. apply IH. by apply step_keeps_session.
Qed.

(** X1: From the fresh editor on a contact table of integer IDs, after any
    clicks on rows, Select All Visible, Deselect All and filter changes,
    in any order: Import Selected exports the rows of the original table
    whose identifier is in the store at that moment, first row of each ID
    only, and writes them to [Contacts.csv] when there are any selected;
    the view left by the last filter plays no part. *)
Theorem session_exports_the_selection
    (contains : matcher) (contacts : list contact)
    (channels : option (list channel)) (actions : list action) (fs : files) :
  (∀ c, c ∈ contacts → ∃ z, ID c = PyInt z) →
  Forall click_on_integer_id actions →
  let e := run contains actions (Editor.init (Some contacts) channels) in
  let rows :=
    keep_first ID (filter (λ c, str (ID c) ∈ contact_selection e) contacts) in
  exported_contacts (import_selected e fs).1.1 = rows
  ∧ (contact_selection e ≠ ∅ →
     (import_selected e fs).2 !! "Contacts.csv" = Some (ContactsTable rows)).
Proof.
  intros Hint Hacts e rows.
  destruct (run_keeps_session contains contacts channels actions
              (Editor.init (Some contacts) channels) Hint Hacts)
    as (Horig & Hch & Hsel & Hcan & _).
  { split_and!; try done;
      first [by exists contacts|intros s Hs; by apply elem_of_empty in Hs]. }
  fold e in Horig, Hch, Hsel, Hcan. unfold rows. clearbody e.
  destruct e as [view chview orig origch sel chsel search type chsearch
                 chtype window].
  cbn in Horig, Hch, Hsel, Hcan. subst orig origch chsel.
  apply export_ignores_filter; try done.
Qed.

Lemma session_exports_the_selection_witness :
  Forall click_on_integer_id [Click "5"; Filter EmptyString "Group"]
  ∧ contacts_df hidden_session = Some [mk_contact "Net" 91 "Group"]
  ∧ exported_contacts (import_selected hidden_session ∅).1.1
    = keep_first ID
        (filter (λ c, str (ID c) ∈ contact_selection hidden_session)
           net_contacts)
  ∧ keep_first ID
      (filter (λ c, str (ID c) ∈ contact_selection hidden_session)
         net_contacts)
    = [mk_contact "Eve" 5 "Private"].
Proof.
  assert (Hacts : Forall click_on_integer_id
                    [Click "5"; Filter EmptyString "Group"]).
  { repeat constructor. by exists 5. }
  assert (Hint : ∀ c, c ∈ net_contacts → ∃ z, ID c = PyInt z).
  { intros c Hc. unfold net_contacts in Hc.
    repeat (apply elem_of_cons in Hc as [->|Hc]); [by eexists..|].
    by apply elem_of_nil in Hc. }
  split; [exact Hacts|]. split; [by vm_compute|].
  split; [|by vm_compute].
  exact (proj1 (session_exports_the_selection exact_match net_contacts None
                  [Click "5"; Filter EmptyString "Group"] ∅ Hint Hacts)).
Defined.

End SessionMore.
